(** * ubuntu-package-installer: the install queue, its event loop and its list pane

    A shallow embedding of [ubuntu-package-installer.py]:

    - [get_initial_packages] and the [Package] constructor (the queue model and
      the resume logic);
    - the body of the [while] loop of [main_ui], one [tick] per iteration, with
      every effect of an iteration (the key read by [getch], the outcome of
      [dpkg-query], of [Popen], of [poll], the lines drained from the child and
      the readings of [time.time()]) supplied by a [TickEnv];
    - [draw_package_list], as far as the visible slice and the scrollbar thumb;
    - [format_seconds], with the exceptions of [int] on a float that is not a
      number.

    Left out: the log pane and the two overlays (they read the state and change
    none of it), the [fcntl] calls that make the child's pipe non-blocking, the
    two [time.sleep] calls, and what follows the loop.

    Python [int]s that can be negative are [Z]; indices and counts, which the
    code only ever increments from [0], are [nat]; Python [float]s are IEEE 754
    binary64 values ([spec_float] with [prec = 53], [emax = 1024]); a [str] is
    the list of its code points. *)

From Stdlib Require Import ZArith List Lia Floats.SpecFloat.
From Stdlib Require DecimalN.
From stdpp Require Import base decidable option list strings gmap.

Open Scope Z_scope.

(** ** Strings *)

Module Str.

Definition str := list N.

(** A literal, for examples. *)
Definition py (s : String.string) : str :=
  map Ascii.N_of_ascii (String.list_ascii_of_string s).
Arguments py s%_string.

(** The characters [str.strip] and [str.split] treat as white space. *)
Definition isspace (c : N) : bool :=
  (((9 <=? c) && (c <=? 13)) || ((28 <=? c) && (c <=? 32))
   || (c =? 133) || (c =? 160) || (c =? 5760)
   || ((8192 <=? c) && (c <=? 8202)) || (c =? 8232) || (c =? 8233)
   || (c =? 8239) || (c =? 8287) || (c =? 12288))%N.

Fixpoint lstrip (s : str) : str :=
  match s with
  | c :: s' => if isspace c then lstrip s' else s
  | [] => []
  end.

Definition rstrip (s : str) : str := rev (lstrip (rev s)).

Definition strip (s : str) : str := rstrip (lstrip s).

(** [s.split()]: the maximal runs of characters that are not white space;
    [cur] is the run being read, reversed. *)
Fixpoint split_from (cur : str) (s : str) : list str :=
  match s with
  | [] => match cur with [] => [] | _ => [rev cur] end
  | c :: s' =>
      if isspace c
      then match cur with
           | [] => split_from [] s'
           | _ => rev cur :: split_from [] s'
           end
      else split_from (c :: cur) s'
  end.

Definition split (s : str) : list str := split_from [] s.

Definition startswith (c : N) (s : str) : bool :=
  match s with
  | c' :: _ => (c' =? c)%N
  | [] => false
  end.

Definition hash : N := 35%N.

End Str.

Import Str.

(** ** The queue model *)

Inductive Status := QUEUED | PROCESSING | SUCCESS | FAILURE | SKIPPED.

#[global] Instance Status_eq_dec : EqDecision Status.
Proof. solve_decision. Defined.

Record Package := mkPackage { line : str; name : str; status : Status }.

Definition set_status (st : Status) (p : Package) : Package :=
  {| line := line p; name := name p; status := st |}.

(** [Package.__init__]. A stripped line that is not empty has a first token,
    so [split()[0]] is defined whenever it is evaluated. *)
Definition Package_init (l : str) : Package :=
  let l' := strip l in
  {| line := l';
     name := match l' with
             | [] => []
             | _ => match split l' with t :: _ => t | [] => [] end
             end;
     status := QUEUED |}.

(** The three files the loader looks at; [None] is a file that does not exist,
    [Some ls] one whose iteration yields the lines [ls]. *)
Record Files := {
  MASTER_LIST : option (list str);
  SUCCESS_LOG : option (list str);
  FAILURE_LOG : option (list str)
}.

(** [{line.strip() for line in f}], after [open(path, 'a').close()] has created
    the file when it was missing. *)
Definition load_set (f : option (list str)) : gset str :=
  list_to_set (strip <$> default [] f).

(** The [for line in f] loop over the master list. *)
Fixpoint load_packages (success_lines failure_lines : gset str)
    (lines : list str) : list Package :=
  match lines with
  | [] => []
  | l :: rest =>
      let l := strip l in
      if bool_decide (l = []) || startswith hash l
      then load_packages success_lines failure_lines rest
      else
        let p := Package_init l in
        let p :=
          if bool_decide (line p ∈ success_lines) then set_status SUCCESS p
          else if bool_decide (line p ∈ failure_lines) then set_status FAILURE p
          else p in
        p :: load_packages success_lines failure_lines rest
  end.

Definition get_initial_packages (fs : Files) : list Package :=
  match MASTER_LIST fs with
  | None => []
  | Some lines =>
      load_packages (load_set (SUCCESS_LOG fs)) (load_set (FAILURE_LOG fs)) lines
  end.

(** ** Floats *)

Module Float.

Definition float := spec_float.
Definition prec : Z := 53.
Definition emax : Z := 1024.

(** [float(n)] for an [int], and the conversion of the [int] operand of a
    mixed operation. (Beyond the range of the floats Python raises
    [OverflowError]; a terminal size or a queue length is far below it.) *)
Definition of_int (n : Z) : float := binary_normalize prec emax n 0 false.
Definition zero : float := of_int 0.

Definition add : float -> float -> float := SFadd prec emax.
Definition sub : float -> float -> float := SFsub prec emax.
Definition mul : float -> float -> float := SFmul prec emax.
Definition div : float -> float -> float := SFdiv prec emax.
Definition ltb : float -> float -> bool := SFltb.

(** [int(x)]: truncation toward zero. Python raises on an infinity or a
    NaN; no quotient of terminal sizes gets there, and the model returns [0]. *)
Definition to_int (x : float) : Z :=
  match x with
  | S754_finite s m e =>
      let a := match e with
               | Z0 => Zpos m
               | Zpos p => Zpos m * 2 ^ Zpos p
               | Zneg p => Zpos m / 2 ^ Zpos p
               end in
      if s then - a else a
  | _ => 0
  end.

(** [sum(xs)] of a list of floats: the additions from the left, starting
    from the [int] [0]. (From Python 3.12 on [sum] compensates the rounding
    errors of the additions; nothing below depends on how the sum is rounded.) *)
Definition fsum (xs : list float) : float := fold_left add xs zero.

End Float.

Abbreviation float := Float.float.

(** ** Python slices *)

Definition slice_index (len i : Z) : Z :=
  if i <? 0 then Z.max 0 (i + len) else Z.min i len.

(** [l[start:stop]] *)
Definition py_slice {A} (l : list A) (start stop : Z) : list A :=
  let len := Z.of_nat (length l) in
  let a := slice_index len start in
  let b := slice_index len stop in
  take (Z.to_nat (b - a)) (drop (Z.to_nat a) l).

(** ** The list pane *)

(** What [draw_package_list] puts on the pane: the text of each row and the
    row of the scrollbar thumb, when one is drawn. Colours and the border are
    left out. *)
Record ListPane := { rows : list str; thumb : option Z }.

Definition symbols (st : Status) : str :=
  match st with
  | QUEUED => py "  "
  | PROCESSING => py "->"
  | SUCCESS => [32; 10004]%N
  | FAILURE => [32; 10006]%N
  | SKIPPED => py " S"
  end.

(** [pane_height], [pane_width] are what [pane.getmaxyx()] returns. *)
Definition draw_package_list (pane_height pane_width : Z)
    (packages : list Package) (scroll_offset : Z) : ListPane :=
  let max_lines := pane_height - 2 in
  let visible_packages := py_slice packages scroll_offset (scroll_offset + max_lines) in
  let display (pkg : Package) :=
    py_slice (symbols (status pkg) ++ py " " ++ line pkg) 0 (pane_width - 4) in
  {| rows := display <$> visible_packages;
     thumb :=
       if max_lines <? Z.of_nat (length packages) then
         let max_scroll := Z.of_nat (length packages) - max_lines in
         let scroll_percent :=
           if 0 <? max_scroll
           then Float.div (Float.of_int scroll_offset) (Float.of_int max_scroll)
           else Float.of_int 0 in
         let scrollbar_pos :=
           Float.to_int (Float.mul scroll_percent (Float.of_int (max_lines - 1))) in
         Some scrollbar_pos
       else None |}.

(** ** The state of [main_ui] *)

Inductive Exn := FileNotFoundError | PermissionError | IndexError.

(** The calls to external programs, in order; [job] is the index of the
    package the call was made for. This is a record kept by the model, the
    program has no such variable. *)
Inductive Call :=
| DpkgQuery (job : nat) (package_name : str)
| Popen (job : nat) (cmd : list str).

Definition call_job (c : Call) : nat :=
  match c with DpkgQuery j _ => j | Popen j _ => j end.

(** [stats_data], without its window. *)
Record Stats := {
  total : nat;
  processed : nat;
  times : list float;
  elapsed : float;
  etr : option float
}.

Record State := {
  packages : list Package;
  height : Z;
  width : Z;
  scroll_offset : Z;
  show_stats : bool;
  show_help : bool;
  stats_data : Stats;
  start_time : float;
  pkg_start_time : float;
  current_index : nat;
  process : option (list str);
  output_lines : list str;
  needs_redraw : bool;
  screen : option ListPane;
  calls : list Call
}.

Definition set_packages (v : list Package) (s : State) : State :=
  {| packages := v; height := height s; width := width s;
     scroll_offset := scroll_offset s; show_stats := show_stats s;
     show_help := show_help s; stats_data := stats_data s;
     start_time := start_time s; pkg_start_time := pkg_start_time s;
     current_index := current_index s; process := process s;
     output_lines := output_lines s; needs_redraw := needs_redraw s;
     screen := screen s; calls := calls s |}.

Definition set_scroll_offset (v : Z) (s : State) : State :=
  {| packages := packages s; height := height s; width := width s;
     scroll_offset := v; show_stats := show_stats s;
     show_help := show_help s; stats_data := stats_data s;
     start_time := start_time s; pkg_start_time := pkg_start_time s;
     current_index := current_index s; process := process s;
     output_lines := output_lines s; needs_redraw := needs_redraw s;
     screen := screen s; calls := calls s |}.

Definition set_show_stats (v : bool) (s : State) : State :=
  {| packages := packages s; height := height s; width := width s;
     scroll_offset := scroll_offset s; show_stats := v;
     show_help := show_help s; stats_data := stats_data s;
     start_time := start_time s; pkg_start_time := pkg_start_time s;
     current_index := current_index s; process := process s;
     output_lines := output_lines s; needs_redraw := needs_redraw s;
     screen := screen s; calls := calls s |}.

Definition set_show_help (v : bool) (s : State) : State :=
  {| packages := packages s; height := height s; width := width s;
     scroll_offset := scroll_offset s; show_stats := show_stats s;
     show_help := v; stats_data := stats_data s;
     start_time := start_time s; pkg_start_time := pkg_start_time s;
     current_index := current_index s; process := process s;
     output_lines := output_lines s; needs_redraw := needs_redraw s;
     screen := screen s; calls := calls s |}.

Definition set_stats_data (v : Stats) (s : State) : State :=
  {| packages := packages s; height := height s; width := width s;
     scroll_offset := scroll_offset s; show_stats := show_stats s;
     show_help := show_help s; stats_data := v;
     start_time := start_time s; pkg_start_time := pkg_start_time s;
     current_index := current_index s; process := process s;
     output_lines := output_lines s; needs_redraw := needs_redraw s;
     screen := screen s; calls := calls s |}.

Definition set_pkg_start_time (v : float) (s : State) : State :=
  {| packages := packages s; height := height s; width := width s;
     scroll_offset := scroll_offset s; show_stats := show_stats s;
     show_help := show_help s; stats_data := stats_data s;
     start_time := start_time s; pkg_start_time := v;
     current_index := current_index s; process := process s;
     output_lines := output_lines s; needs_redraw := needs_redraw s;
     screen := screen s; calls := calls s |}.

Definition set_current_index (v : nat) (s : State) : State :=
  {| packages := packages s; height := height s; width := width s;
     scroll_offset := scroll_offset s; show_stats := show_stats s;
     show_help := show_help s; stats_data := stats_data s;
     start_time := start_time s; pkg_start_time := pkg_start_time s;
     current_index := v; process := process s;
     output_lines := output_lines s; needs_redraw := needs_redraw s;
     screen := screen s; calls := calls s |}.

Definition set_process (v : option (list str)) (s : State) : State :=
  {| packages := packages s; height := height s; width := width s;
     scroll_offset := scroll_offset s; show_stats := show_stats s;
     show_help := show_help s; stats_data := stats_data s;
     start_time := start_time s; pkg_start_time := pkg_start_time s;
     current_index := current_index s; process := v;
     output_lines := output_lines s; needs_redraw := needs_redraw s;
     screen := screen s; calls := calls s |}.

Definition set_output_lines (v : list str) (s : State) : State :=
  {| packages := packages s; height := height s; width := width s;
     scroll_offset := scroll_offset s; show_stats := show_stats s;
     show_help := show_help s; stats_data := stats_data s;
     start_time := start_time s; pkg_start_time := pkg_start_time s;
     current_index := current_index s; process := process s;
     output_lines := v; needs_redraw := needs_redraw s;
     screen := screen s; calls := calls s |}.

Definition set_needs_redraw (v : bool) (s : State) : State :=
  {| packages := packages s; height := height s; width := width s;
     scroll_offset := scroll_offset s; show_stats := show_stats s;
     show_help := show_help s; stats_data := stats_data s;
     start_time := start_time s; pkg_start_time := pkg_start_time s;
     current_index := current_index s; process := process s;
     output_lines := output_lines s; needs_redraw := v;
     screen := screen s; calls := calls s |}.

Definition set_screen (v : option ListPane) (s : State) : State :=
  {| packages := packages s; height := height s; width := width s;
     scroll_offset := scroll_offset s; show_stats := show_stats s;
     show_help := show_help s; stats_data := stats_data s;
     start_time := start_time s; pkg_start_time := pkg_start_time s;
     current_index := current_index s; process := process s;
     output_lines := output_lines s; needs_redraw := needs_redraw s;
     screen := v; calls := calls s |}.

Definition set_calls (v : list Call) (s : State) : State :=
  {| packages := packages s; height := height s; width := width s;
     scroll_offset := scroll_offset s; show_stats := show_stats s;
     show_help := show_help s; stats_data := stats_data s;
     start_time := start_time s; pkg_start_time := pkg_start_time s;
     current_index := current_index s; process := process s;
     output_lines := output_lines s; needs_redraw := needs_redraw s;
     screen := screen s; calls := v |}.

(** The state before the first iteration (lines 197 to 206). *)
Definition initial_state (pkgs : list Package) (h w : Z) (now : float) : State :=
  {| packages := pkgs; height := h; width := w;
     scroll_offset := 0; show_stats := true; show_help := false;
     stats_data := {| total := length pkgs; processed := 0; times := [];
                      elapsed := Float.zero; etr := None |};
     start_time := now; pkg_start_time := Float.zero;
     current_index := 0; process := None;
     output_lines := [py "Welcome! Press 'h' for help or 's' to toggle stats."];
     needs_redraw := false; screen := None; calls := [] |}.

(** ** One iteration of the loop *)

(** What one iteration gets from outside the program. A field is read only
    where the code makes the call; the two that start a program are given
    the argument list. *)
Inductive RunOutcome := Exited (returncode : Z) | RunRaised (e : Exn).
Inductive PopenOutcome := Spawned | PopenRaised (e : Exn).

Record TickEnv := {
  getch : Z;                  (* stdscr.getch(), -1 when no key is waiting *)
  subprocess_run : list str -> RunOutcome;      (* subprocess.run(args) *)
  subprocess_Popen : list str -> PopenOutcome;  (* subprocess.Popen(cmd) *)
  readline : list str;        (* the lines read before the stream would block *)
  poll : option Z;            (* process.poll() *)
  time_job : float;           (* time.time() on line 238 or 256 *)
  time_stats : float          (* time.time() on line 267 *)
}.

(** [check=True] turns a nonzero exit into [CalledProcessError], which is
    caught together with [FileNotFoundError]. *)
Definition check_if_installed (e : TickEnv) (package_name : str) : Exn + bool :=
  match subprocess_run e [py "dpkg-query"; py "-W"; py "-f=${Status}"; package_name] with
  | Exited rc => inr (rc =? 0)
  | RunRaised FileNotFoundError => inr false
  | RunRaised x => inl x
  end.

Definition ord_q : Z := 113.
Definition ord_h : Z := 104.
Definition ord_s : Z := 115.
Definition KEY_DOWN : Z := 258.
Definition KEY_UP : Z := 259.
Definition KEY_NPAGE : Z := 338.
Definition KEY_PPAGE : Z := 339.

Definition is_scroll_key (key : Z) : bool :=
  (key =? KEY_UP) || (key =? KEY_DOWN) || (key =? KEY_PPAGE) || (key =? KEY_NPAGE).

Definition max_scroll_of (s : State) : Z :=
  Z.max 0 (Z.of_nat (length (packages s)) - (height s - 2)).

(** Lines 212 to 225; [None] is the [break]. *)
Definition handle_input (key : Z) (s : State) : option State :=
  if key =? ord_q then None
  else if key =? ord_h then
    Some (set_needs_redraw true (set_show_help (negb (show_help s)) s))
  else if key =? ord_s then
    Some (set_needs_redraw true (set_show_stats (negb (show_stats s)) s))
  else if is_scroll_key key then
    let max_list_lines := height s - 2 in
    let scroll_offset :=
      if key =? KEY_UP then scroll_offset s - 1
      else if key =? KEY_DOWN then scroll_offset s + 1
      else if key =? KEY_PPAGE then scroll_offset s - max_list_lines
      else scroll_offset s + max_list_lines in
    let max_scroll := max_scroll_of s in
    Some (set_needs_redraw true
            (set_scroll_offset (Z.max 0 (Z.min scroll_offset max_scroll)) s))
  else Some s.

(** [packages[current_index].status = st] *)
Definition set_pkg_status (st : Status) (s : State) : State :=
  set_packages (alter (set_status st) (current_index s) (packages s)) s.

Definition log_call (c : Call) (s : State) : State :=
  set_calls (calls s ++ [c]) s.

Definition install_cmd (package_name : str) : list str :=
  [py "sudo"; py "apt-get"; py "install"; py "-y"; package_name].

Definition banner (package_name : str) : list str :=
  [py "Running: sudo apt-get install -y " ++ package_name; replicate 40 45%N].

(** Lines 243 to 245. *)
Definition advance_unless_processing (s : State) : State :=
  set_needs_redraw true
    match packages s !! current_index s with
    | Some pkg =>
        if decide (status pkg = PROCESSING) then s
        else set_current_index (S (current_index s)) s
    | None => s
    end.

(** Lines 229 to 245: no child is running. *)
Definition start_job (e : TickEnv) (s : State) : Exn * State + State :=
  match packages s !! current_index s with
  | None => inl (IndexError, s)
  | Some pkg =>
      if decide (status pkg = QUEUED) then
        let s := log_call (DpkgQuery (current_index s) (name pkg)) s in
        match check_if_installed e (name pkg) with
        | inl x => inl (x, s)
        | inr true => inr (advance_unless_processing (set_pkg_status SKIPPED s))
        | inr false =>
            let s := set_pkg_status PROCESSING s in
            let s := set_output_lines (banner (name pkg)) s in
            let cmd := install_cmd (name pkg) in
            let s := log_call (Popen (current_index s) cmd) s in
            match subprocess_Popen e cmd with
            | PopenRaised x => inl (x, s)
            | Spawned =>
                let s := set_process (Some cmd) s in
                let s := set_pkg_start_time (time_job e) s in
                inr (advance_unless_processing s)
            end
        end
      else inr (advance_unless_processing s)
  end.

(** Lines 248 to 250. *)
Definition drain (lines : list str) (s : State) : State :=
  fold_left
    (fun s l =>
       match l with
       | [] => s
       | _ => set_needs_redraw true (set_output_lines (output_lines s ++ [strip l]) s)
       end)
    lines s.

Definition append_time (d : float) (s : State) : State :=
  let st := stats_data s in
  set_stats_data {| total := total st; processed := processed st;
                    times := times st ++ [d]; elapsed := elapsed st;
                    etr := etr st |} s.

(** Lines 252 to 263, once [poll()] has returned [returncode]. *)
Definition finish_job (returncode : Z) (now : float) (s : State) : Exn * State + State :=
  match packages s !! current_index s with
  | None => inl (IndexError, s)
  | Some _ =>
      let s :=
        if returncode =? 0 then
          let s := set_pkg_status SUCCESS s in
          if Float.ltb (Float.of_int 0) (pkg_start_time s)
          then append_time (Float.sub now (pkg_start_time s)) s
          else s
        else set_pkg_status FAILURE s in
      let s := set_pkg_start_time (Float.of_int 0) (set_process None s) in
      let s := set_current_index (S (current_index s)) s in
      inr (set_needs_redraw true s)
  end.

(** Lines 247 to 263: a child is running. *)
Definition watch_job (e : TickEnv) (s : State) : Exn * State + State :=
  let s := drain (readline e) s in
  match poll e with
  | None => inr s
  | Some returncode => finish_job returncode (time_job e) s
  end.

(** [sum(1 for p in packages if p.status in sts)] *)
Definition count_status (sts : list Status) (pkgs : list Package) : nat :=
  length (filter (fun p => status p ∈ sts) pkgs).

(** [avg_time * remaining_to_install] *)
Definition etr_of (ts : list float) (pkgs : list Package) : float :=
  let avg_time := Float.div (Float.fsum ts) (Float.of_int (Z.of_nat (length ts))) in
  let remaining_to_install := count_status [QUEUED] pkgs in
  Float.mul avg_time (Float.of_int (Z.of_nat remaining_to_install)).

(** Lines 266 to 271. *)
Definition update_stats (now : float) (s : State) : State :=
  let st := stats_data s in
  set_stats_data
    {| total := total st;
       processed := count_status [SUCCESS; FAILURE; SKIPPED] (packages s);
       times := times st;
       elapsed := Float.sub now (start_time s);
       etr := match times st with
              | [] => etr st
              | _ => Some (etr_of (times st) (packages s))
              end |} s.

(** Lines 274 to 277. *)
Definition auto_scroll (s : State) : State :=
  let max_list_lines := height s - 2 in
  let new_offset := Z.of_nat (current_index s) - max_list_lines / 2 in
  let max_scroll := max_scroll_of s in
  set_scroll_offset (Z.max 0 (Z.min new_offset max_scroll)) s.

(** Lines 279 to 291, the list pane only. The pane was made by
    [curses.newwin(height, split_pos, 0, 0)] with [split_pos = width // 2],
    and [getmaxyx()] gives these two back. *)
Definition redraw (s : State) : State :=
  if needs_redraw s || bool_decide (is_Some (process s)) then
    set_screen
      (Some (draw_package_list (height s) (width s / 2) (packages s) (scroll_offset s))) s
  else s.

Inductive Outcome :=
| Continue (s : State)
| Break (s : State)
| Raise (e : Exn) (s : State).

(** The main state machine, lines 228 to 263. *)
Definition job_step (e : TickEnv) (s : State) : Exn * State + State :=
  match process s with
  | None => start_job e s
  | Some _ => watch_job e s
  end.

(** The body of [while current_index < len(packages)]. *)
Definition tick (e : TickEnv) (s : State) : Outcome :=
  let s := set_needs_redraw false s in
  match handle_input (getch e) s with
  | None => Break s
  | Some s =>
      match job_step e s with
      | inl (x, s) => Raise x s
      | inr s => Continue (redraw (auto_scroll (update_stats (time_stats e) s)))
      end
  end.

(** ** The loop *)

Inductive Exit :=
| Completed (s : State)      (* the cursor passed the last package *)
| Quit (s : State)           (* [q] *)
| Crashed (e : Exn) (s : State)  (* an exception left [main_ui] *)
| Running (s : State).       (* the supplied iterations are used up *)

Fixpoint main_loop (envs : list TickEnv) (s : State) : Exit :=
  if bool_decide (current_index s < length (packages s))%nat then
    match envs with
    | [] => Running s
    | e :: envs =>
        match tick e s with
        | Continue s' => main_loop envs s'
        | Break s' => Quit s'
        | Raise x s' => Crashed x s'
        end
    end
  else Completed s.

(** [main_ui], up to the end of the loop; [None] is the early [return] on an
    empty queue. *)
Definition main_ui (fs : Files) (h w : Z) (now : float) (envs : list TickEnv) : option Exit :=
  match get_initial_packages fs with
  | [] => None
  | pkgs => Some (main_loop envs (initial_state pkgs h w now))
  end.

(** [run s envs s']: the loop, started in [s], is at the top of an iteration
    in state [s'] after the iterations [envs]. *)
Inductive run (s : State) : list TickEnv -> State -> Prop :=
| run_nil : run s [] s
| run_snoc envs s1 e s2 :
    run s envs s1 ->
    (current_index s1 < length (packages s1))%nat ->
    tick e s1 = Continue s2 ->
    run s (envs ++ [e]) s2.

Definition init (fs : Files) (h w : Z) (now : float) : State :=
  initial_state (get_initial_packages fs) h w now.

(** * Specification *)

(** The predicates and the auxiliary functions the properties are stated
    with. *)

(** A string that does not begin with white space. *)
Definition starts_clean (s : str) : Prop :=
  match s with
  | [] => True
  | c :: _ => isspace c = false
  end.

(** The status a key starts with. *)
Definition initial_status (success_lines failure_lines : gset str) (key : str) : Status :=
  if bool_decide (key ∈ success_lines) then SUCCESS
  else if bool_decide (key ∈ failure_lines) then FAILURE
  else QUEUED.

(** The state a step ends in, whether it raised or not. *)
Definition state_of (r : Exn * State + State) : State :=
  match r with inl (_, s) => s | inr s => s end.

(** The state an iteration ends in. *)
Definition outcome_state (o : Outcome) : State :=
  match o with Continue s | Break s | Raise _ s => s end.

(** The child is running exactly when the package under the cursor is
    [PROCESSING], and no other package ever is. *)
Definition proc_inv (s : State) : Prop :=
  (forall j p, packages s !! j = Some p -> status p = PROCESSING ->
     is_Some (process s) /\ j = current_index s) /\
  (is_Some (process s) ->
     exists p, packages s !! current_index s = Some p /\ status p = PROCESSING).

(** The state in which [Popen] is called. *)
Definition launching (p : Package) (s : State) : State :=
  log_call (Popen (current_index s) (install_cmd (name p)))
    (set_output_lines (banner (name p))
       (set_pkg_status PROCESSING
          (log_call (DpkgQuery (current_index s) (name p)) s))).

(** Line 256. *)
Definition record_time (now : float) (s : State) : State :=
  if Float.ltb (Float.of_int 0) (pkg_start_time s)
  then append_time (Float.sub now (pkg_start_time s)) s
  else s.

(** Lines 260 to 262. *)
Definition finished (s : State) : State :=
  set_needs_redraw true
    (set_current_index (S (current_index s))
       (set_pkg_start_time (Float.of_int 0) (set_process None s))).

(** The cases of [job_step] in a state that satisfies [proc_inv] and the loop
    condition. *)
Inductive job_case (e : TickEnv) (s : State) : Exn * State + State -> Prop :=
| jc_visit p :
    process s = None -> packages s !! current_index s = Some p ->
    status p = SUCCESS \/ status p = FAILURE \/ status p = SKIPPED ->
    job_case e s
      (inr (set_needs_redraw true (set_current_index (S (current_index s)) s)))
| jc_precheck_raise p x :
    process s = None -> packages s !! current_index s = Some p ->
    status p = QUEUED -> check_if_installed e (name p) = inl x ->
    job_case e s (inl (x, log_call (DpkgQuery (current_index s) (name p)) s))
| jc_skip p :
    process s = None -> packages s !! current_index s = Some p ->
    status p = QUEUED -> check_if_installed e (name p) = inr true ->
    job_case e s
      (inr (set_needs_redraw true
              (set_current_index (S (current_index s))
                 (set_pkg_status SKIPPED
                    (log_call (DpkgQuery (current_index s) (name p)) s)))))
| jc_spawn_raise p x :
    process s = None -> packages s !! current_index s = Some p ->
    status p = QUEUED -> check_if_installed e (name p) = inr false ->
    subprocess_Popen e (install_cmd (name p)) = PopenRaised x ->
    job_case e s (inl (x, launching p s))
| jc_launch p :
    process s = None -> packages s !! current_index s = Some p ->
    status p = QUEUED -> check_if_installed e (name p) = inr false ->
    subprocess_Popen e (install_cmd (name p)) = Spawned ->
    job_case e s
      (inr (set_needs_redraw true
              (set_pkg_start_time (time_job e)
                 (set_process (Some (install_cmd (name p))) (launching p s)))))
| jc_wait cmd p :
    process s = Some cmd -> packages s !! current_index s = Some p ->
    status p = PROCESSING -> poll e = None ->
    job_case e s (inr (drain (readline e) s))
| jc_success cmd p :
    process s = Some cmd -> packages s !! current_index s = Some p ->
    status p = PROCESSING -> poll e = Some 0 ->
    job_case e s
      (inr (finished (record_time (time_job e)
                        (set_pkg_status SUCCESS (drain (readline e) s)))))
| jc_failure cmd p rc :
    process s = Some cmd -> packages s !! current_index s = Some p ->
    status p = PROCESSING -> poll e = Some rc -> rc <> 0 ->
    job_case e s
      (inr (finished (set_pkg_status FAILURE (drain (readline e) s)))).

(** The status changes the program makes. *)
Definition trans (a b : Status) : Prop :=
  a = b \/
  (a = QUEUED /\ (b = SKIPPED \/ b = PROCESSING)) \/
  (a = PROCESSING /\ (b = SUCCESS \/ b = FAILURE)).

(** A reading of the clock that is later than the epoch, [t > 0]. *)
Definition after_epoch (t : float) : Prop := Float.ltb (Float.of_int 0) t = true.

(** The variables the input handler does not touch. *)
Definition same_job (s s1 : State) : Prop :=
  packages s1 = packages s /\ current_index s1 = current_index s /\
  process s1 = process s /\ pkg_start_time s1 = pkg_start_time s /\
  stats_data s1 = stats_data s /\ calls s1 = calls s /\
  height s1 = height s /\ width s1 = width s /\
  start_time s1 = start_time s /\ screen s1 = screen s.

(** The bound on the scroll offset of the list pane. *)
Definition scroll_ok (s : State) : Prop :=
  0 <= scroll_offset s <= max_scroll_of s.

(** Lines 266 to 291: the part of an iteration after the state machine. *)
Definition finish_tick (e : TickEnv) (s : State) : State :=
  redraw (auto_scroll (update_stats (time_stats e) s)).

(** [current_index < len(packages)] *)
Definition loop_cond (s : State) : Prop :=
  (current_index s < length (packages s))%nat.

(** The outcome of an iteration whose state machine step gave [r]. *)
Definition outcome_of (e : TickEnv) (r : Exn * State + State) : Outcome :=
  match r with
  | inl (x, s) => Raise x s
  | inr s => Continue (finish_tick e s)
  end.

(** The state in which the loop stopped. *)
Definition exit_state (x : Exit) : State :=
  match x with Completed s | Quit s | Crashed _ s | Running s => s end.

(** The queue of [s'] is that of [s] with every status moved along [trans]. *)
Definition evolves (s s' : State) : Prop :=
  length (packages s') = length (packages s) /\
  forall j q, packages s !! j = Some q ->
    exists q', packages s' !! j = Some q' /\
      line q' = line q /\ name q' = name q /\ trans (status q) (status q').

(** The statuses counted as processed. *)
Definition resolved (st : Status) : Prop :=
  st = SUCCESS \/ st = FAILURE \/ st = SKIPPED.

(** Over any number of iterations a package keeps its line and name, never
    returns to [QUEUED], and keeps a status that is resolved. *)
Definition settled (s s' : State) : Prop :=
  length (packages s') = length (packages s) /\
  forall j q, packages s !! j = Some q ->
    exists q', packages s' !! j = Some q' /\
      line q' = line q /\ name q' = name q /\
      (status q <> QUEUED -> status q' <> QUEUED) /\
      (resolved (status q) -> status q' = status q).

(** Every call made so far was made for a job that was [QUEUED] in [s0]. *)
Definition calls_for_queued (s0 s : State) : Prop :=
  forall c, c ∈ calls s ->
    exists p0, packages s0 !! call_job c = Some p0 /\ status p0 = QUEUED.

(** [1 if a job is Processing else 0] *)
Definition processing_flag (pkgs : list Package) : nat :=
  if bool_decide (Exists (fun p => status p = PROCESSING) pkgs) then 1 else 0.

(** [etr] is what the recorded durations and the queue make it. *)
Definition etr_ok (s : State) : Prop :=
  etr (stats_data s)
  = match times (stats_data s) with
    | [] => None
    | ts => Some (etr_of ts (packages s))
    end.

(** A drawn pane has no thumb when the queue fits in it. *)
Definition screen_ok (s : State) : Prop :=
  forall pane, screen s = Some pane ->
    Z.of_nat (length (packages s)) <= height s - 2 -> thumb pane = None.

(** What holds of the geometry, the statistics and the view along a run. *)
Definition view_inv (s0 s : State) : Prop :=
  height s = height s0 /\ width s = width s0 /\
  length (packages s) = length (packages s0) /\
  total (stats_data s) = total (stats_data s0) /\
  scroll_ok s /\ etr_ok s /\ screen_ok s.

(** While a child runs, the time it was started at is after the epoch. *)
Definition clock_ok (s : State) : Prop :=
  is_Some (process s) -> after_epoch (pkg_start_time s).

(** The state after the iterations [envs], when each of them continues. *)
Fixpoint run_ticks (envs : list TickEnv) (s : State) : option State :=
  match envs with
  | [] => Some s
  | e :: envs =>
      if bool_decide (loop_cond s) then
        match tick e s with
        | Continue s' => run_ticks envs s'
        | _ => None
        end
      else None
  end.

(** [f] applied to the state a step ends in. *)
Definition map_state (f : State -> State) (r : Exn * State + State) : Exn * State + State :=
  match r with
  | inl (x, s) => inl (x, f s)
  | inr s => inr (f s)
  end.

(** ** Worked examples *)

(** A queue of three jobs, the third one installed by an earlier run. *)
Definition fs_demo : Files :=
  {| MASTER_LIST := Some [py "# queue"; py "alpha"; py "beta 2.0 "; py "gamma"];
     SUCCESS_LOG := Some [py "gamma"];
     FAILURE_LOG := None |}.

(** An iteration with no key pressed: a package that is not installed, an
    installer that starts, a child that is still running. *)
Definition env_idle (now : Z) : TickEnv :=
  {| getch := -1; subprocess_run := fun _ => Exited 1;
     subprocess_Popen := fun _ => Spawned; readline := [];
     poll := None; time_job := Float.of_int now; time_stats := Float.of_int now |}.

(** An iteration with the down arrow pressed in which the child is found to
    have exited with [rc]. *)
Definition env_exit (rc now : Z) : TickEnv :=
  {| getch := KEY_DOWN; subprocess_run := fun _ => Exited 1;
     subprocess_Popen := fun _ => Spawned;
     readline := [py "Setting up ..."]; poll := Some rc;
     time_job := Float.of_int now; time_stats := Float.of_int now |}.

(** alpha is launched, runs, exits with [0]; beta is launched. *)
Definition envs_demo : list TickEnv :=
  [env_idle 1000; env_idle 1001; env_exit 0 1004; env_idle 1005].

Definition s_demo : State :=
  default (init fs_demo 24 80 (Float.of_int 999))
    (run_ticks envs_demo (init fs_demo 24 80 (Float.of_int 999))).

(** A queue whose one key is in both logs. *)
Definition fs_both : Files :=
  {| MASTER_LIST := Some [py "alpha"];
     SUCCESS_LOG := Some [py "alpha"];
     FAILURE_LOG := Some [py "alpha"] |}.

(** The installer cannot be spawned. *)
Definition env_no_installer : TickEnv :=
  {| getch := -1; subprocess_run := fun _ => Exited 1;
     subprocess_Popen := fun _ => PopenRaised FileNotFoundError;
     readline := []; poll := None;
     time_job := Float.of_int 1000; time_stats := Float.of_int 1000 |}.

(** The nearest integer to [n / d] for [0 < d], a tie going to the even one. *)
Definition round_div (n d : Z) : Z :=
  let q := n / d in
  match 2 * (n mod d) ?= d with
  | Lt => q
  | Gt => q + 1
  | Eq => if Z.even q then q else q + 1
  end.

(** The thumb row in the words of the specification:
    [round(scrollOffset / maxScroll * (visibleRows - 1))]. *)
Definition spec_thumb_row (scrollOffset maxScroll visibleRows : Z) : Z :=
  round_div (scrollOffset * (visibleRows - 1)) maxScroll.

(** Eight queued jobs: twice what a pane of height 6 shows. *)
Definition eight_jobs : list Package :=
  replicate 8 {| line := py "pkg"; name := py "pkg"; status := QUEUED |}.

(** A queue of eight jobs on a terminal of height 6, and an iteration in
    which the job under the cursor is found installed. *)
Definition fs_eight : Files :=
  {| MASTER_LIST := Some (replicate 8 (py "pkg"));
     SUCCESS_LOG := None;
     FAILURE_LOG := None |}.

Definition env_installed : TickEnv :=
  {| getch := KEY_NPAGE; subprocess_run := fun _ => Exited 0;
     subprocess_Popen := fun _ => Spawned; readline := [];
     poll := None; time_job := Float.of_int 1000; time_stats := Float.of_int 1000 |}.

Definition s_scrolled : State :=
  default (init fs_eight 6 80 (Float.of_int 999))
    (run_ticks [env_installed; env_installed; env_installed]
       (init fs_eight 6 80 (Float.of_int 999))).

(** Two jobs and no logs. *)
Definition fs_two : Files :=
  {| MASTER_LIST := Some [py "alpha"; py "beta"];
     SUCCESS_LOG := None;
     FAILURE_LOG := None |}.


(** ** Further definitions *)

(** A line of the master list that becomes a job: not blank, not a comment. *)
Definition job_line (l : str) : Prop := l <> [] /\ startswith hash l = false.

#[global] Instance job_line_dec l : Decision (job_line l).
Proof. unfold job_line. apply _. Defined.

(** A string that does not end with white space. *)
Definition ends_clean (s : str) : Prop := starts_clean (rev s).

(** Two logs that differ in the order of their lines, in repeated lines and in
    the white space around a key. *)
Definition fs_log_a : Files :=
  {| MASTER_LIST := Some [py "alpha"; py "beta"; py "gamma"];
     SUCCESS_LOG := Some [py "alpha"; py "gamma"];
     FAILURE_LOG := Some [py "beta"] |}.

Definition fs_log_b : Files :=
  {| MASTER_LIST := Some [py "alpha"; py "beta"; py "gamma"];
     SUCCESS_LOG := Some [py " gamma "; py "alpha"; py "gamma"; py "alpha  "];
     FAILURE_LOG := Some [py "beta"; py "beta"] |}.

(** What holds of the queue around the cursor: the jobs before it are
    resolved, the jobs after it are as they were loaded, and so is the job
    under it as long as no child runs. *)
Definition frontier (s0 s : State) : Prop :=
  (current_index s <= length (packages s))%nat /\
  (forall j p, (j < current_index s)%nat -> packages s !! j = Some p ->
     resolved (status p)) /\
  (forall j, (current_index s < j)%nat -> packages s !! j = packages s0 !! j) /\
  (process s = None ->
   packages s !! current_index s = packages s0 !! current_index s).

(** The calls made for job [j], in order. *)
Definition calls_of (j : nat) (cs : list Call) : list Call :=
  filter (fun c => call_job c = j) cs.

(** The calls a job has behind it, by the status it was loaded with and the
    status it has now. *)
Definition calls_by_status (j : nat) (p0 p : Package) : list Call :=
  if decide (status p0 = QUEUED) then
    match status p with
    | QUEUED => []
    | SKIPPED => [DpkgQuery j (name p)]
    | _ => [DpkgQuery j (name p); Popen j (install_cmd (name p))]
    end
  else [].

(** The calls an iteration makes for a job that goes from [p] to status
    [st']. *)
Definition calls_of_step (j : nat) (p : Package) (st' : Status) : list Call :=
  if decide (status p = QUEUED) then
    match st' with
    | SKIPPED => [DpkgQuery j (name p)]
    | _ => [DpkgQuery j (name p); Popen j (install_cmd (name p))]
    end
  else [].

(** The durations an iteration records. *)
Definition times_of_step (e : TickEnv) (s : State) (p : Package) (st' : Status)
    : list float :=
  if decide (status p = PROCESSING /\ st' = SUCCESS) then
    if Float.ltb (Float.of_int 0) (pkg_start_time s)
    then [Float.sub (time_job e) (pkg_start_time s)]
    else []
  else [].

(** The lines [drain] appends. *)
Definition drained (lines : list str) : list str :=
  strip <$> filter (fun l => l <> []) lines.

(** The log buffer after an iteration. *)
Definition log_of_step (e : TickEnv) (s : State) (p : Package) (st' : Status)
    : list str :=
  if decide (status p = QUEUED /\ st' = PROCESSING) then banner (name p)
  else if decide (status p = PROCESSING) then output_lines s ++ drained (readline e)
  else output_lines s.

(** An execution that runs to the end of a queue of eight installed jobs. *)
Definition s_done : State :=
  exit_state (main_loop (replicate 8 env_installed) (init fs_eight 6 80 (Float.of_int 999))).

(** ** [format_seconds] *)

(** What [int(x)] raises on a float that is not finite. *)
Inductive IntError := ValueError | OverflowError.

Fixpoint uint_codes (d : Decimal.uint) : str :=
  match d with
  | Decimal.Nil => []
  | Decimal.D0 d => 48%N :: uint_codes d
  | Decimal.D1 d => 49%N :: uint_codes d
  | Decimal.D2 d => 50%N :: uint_codes d
  | Decimal.D3 d => 51%N :: uint_codes d
  | Decimal.D4 d => 52%N :: uint_codes d
  | Decimal.D5 d => 53%N :: uint_codes d
  | Decimal.D6 d => 54%N :: uint_codes d
  | Decimal.D7 d => 55%N :: uint_codes d
  | Decimal.D8 d => 56%N :: uint_codes d
  | Decimal.D9 d => 57%N :: uint_codes d
  end.

(** The decimal digits of a natural number. *)
Definition digits (n : N) : str := uint_codes (N.to_uint n).

(** [f"{n:02d}"]: at least two characters, the sign among them, zeros added
    after the sign. *)
Definition format_02d (n : Z) : str :=
  if n <? 0 then 45%N :: digits (Z.to_N (- n))
  else
    let d := digits (Z.to_N n) in
    replicate (2 - length d) 48%N ++ d.

(** [format_seconds(seconds)]; [None] is Python's [None]. *)
Definition format_seconds (seconds : option float) : IntError + str :=
  match seconds with
  | None => inr (py "--:--")
  | Some x =>
      if Float.ltb x (Float.of_int 0) then inr (py "--:--")
      else
        match x with
        | S754_nan => inl ValueError
        | S754_infinity _ => inl OverflowError
        | _ =>
            let n := Float.to_int x in
            let minutes := n / 60 in
            let seconds := n mod 60 in
            inr (format_02d minutes ++ py ":" ++ format_02d seconds)
        end
  end.

(** Reading a string of decimal digits. *)
Fixpoint codes_uint (s : str) : option Decimal.uint :=
  match s with
  | [] => Some Decimal.Nil
  | c :: s =>
      d ← codes_uint s;
      if (c =? 48)%N then Some (Decimal.D0 d)
      else if (c =? 49)%N then Some (Decimal.D1 d)
      else if (c =? 50)%N then Some (Decimal.D2 d)
      else if (c =? 51)%N then Some (Decimal.D3 d)
      else if (c =? 52)%N then Some (Decimal.D4 d)
      else if (c =? 53)%N then Some (Decimal.D5 d)
      else if (c =? 54)%N then Some (Decimal.D6 d)
      else if (c =? 55)%N then Some (Decimal.D7 d)
      else if (c =? 56)%N then Some (Decimal.D8 d)
      else if (c =? 57)%N then Some (Decimal.D9 d)
      else None
  end.

Definition parse_digits (s : str) : option N :=
  match s with
  | [] => None
  | _ => N.of_uint <$> codes_uint s
  end.

(** A float that is a number: neither a NaN nor an infinity. *)
Definition is_finite (x : float) : Prop :=
  match x with
  | S754_zero _ | S754_finite _ _ _ => True
  | _ => False
  end.

(** ** Keys *)

(** The iteration [e] with another key read. *)
Definition with_getch (key : Z) (e : TickEnv) : TickEnv :=
  {| getch := key; subprocess_run := subprocess_run e;
     subprocess_Popen := subprocess_Popen e; readline := readline e;
     poll := poll e; time_job := time_job e; time_stats := time_stats e |}.

(** A state with other view variables. *)
Definition with_view (b h t : bool) (o : Z) (s : State) : State :=
  set_needs_redraw b (set_show_help h (set_show_stats t (set_scroll_offset o s))).

Example load_demo :
  status <$> get_initial_packages
    {| MASTER_LIST := Some [py "# comment"; py "alpha 1.0  "; py ""; py " beta"; py "gamma"];
       SUCCESS_LOG := Some [py "alpha 1.0"];
       FAILURE_LOG := Some [py "gamma"; py "alpha 1.0"] |}
  = [SUCCESS; QUEUED; FAILURE].
Proof. vm_compute. reflexivity. Qed.

Example name_demo : name (Package_init (py "  alpha 1.0 amd64 ")) = py "alpha".
Proof. vm_compute. reflexivity. Qed.

(** * Properties *)

(** ** Strings: [strip] *)

Lemma lstrip_starts_clean s : starts_clean (lstrip s).
Proof.
  induction s as [|c s IH]; simpl; [exact I|].
  destruct (isspace c) eqn:Hc; [exact IH|exact Hc].
Qed.

Lemma lstrip_clean s : starts_clean s -> lstrip s = s.
Proof. destruct s as [|c s]; simpl; [reflexivity|]. intros ->. reflexivity. Qed.

Lemma lstrip_suffix s : exists sp, s = sp ++ lstrip s.
Proof.
  induction s as [|c s [sp IH]]; simpl.
  - exists []. reflexivity.
  - destruct (isspace c).
    + exists (c :: sp). simpl. f_equal. exact IH.
    + exists []. reflexivity.
Qed.

Lemma rstrip_prefix s : exists sp, s = rstrip s ++ sp.
Proof.
  unfold rstrip. destruct (lstrip_suffix (rev s)) as [sp Hsp].
  exists (rev sp). rewrite <- rev_app_distr, <- Hsp, rev_involutive. reflexivity.
Qed.

Lemma rstrip_starts_clean s : starts_clean s -> starts_clean (rstrip s).
Proof.
  intros Hs. destruct (rstrip_prefix s) as [sp Hsp].
  destruct (rstrip s) as [|c r]; [exact I|].
  rewrite Hsp in Hs. exact Hs.
Qed.

Lemma strip_idempotent s : strip (strip s) = strip s.
Proof.
  unfold strip.
  assert (Hc : starts_clean (rstrip (lstrip s)))
    by apply rstrip_starts_clean, lstrip_starts_clean.
  rewrite (lstrip_clean _ Hc).
  unfold rstrip at 1 2. rewrite rev_involutive.
  rewrite (lstrip_clean (lstrip (rev (lstrip s)))) by apply lstrip_starts_clean.
  reflexivity.
Qed.

(** [split()[0]] in [Package.__init__] is never out of range. *)
Lemma split_from_nonempty cur s : cur <> [] -> split_from cur s <> [].
Proof.
  revert cur. induction s as [|c s IH]; intros cur Hcur; simpl.
  - destruct cur; [contradiction|discriminate].
  - destruct (isspace c).
    + destruct cur; [contradiction|discriminate].
    + apply IH. discriminate.
Qed.

Lemma split_strip_nonempty l : strip l <> [] -> split (strip l) <> [].
Proof.
  intros Hne.
  assert (Hc : starts_clean (strip l))
    by apply rstrip_starts_clean, lstrip_starts_clean.
  destruct (strip l) as [|c r]; [contradiction|].
  unfold split. simpl in *. rewrite Hc. apply split_from_nonempty. discriminate.
Qed.

(** ** Loading *)

Lemma line_set_status st p : line (set_status st p) = line p.
Proof. reflexivity. Qed.

Lemma status_set_status st p : status (set_status st p) = st.
Proof. reflexivity. Qed.

Lemma line_Package_init l : line (Package_init l) = strip l.
Proof. reflexivity. Qed.

Lemma status_Package_init l : status (Package_init l) = QUEUED.
Proof. reflexivity. Qed.

Lemma load_packages_elem success_lines failure_lines lines p :
  p ∈ load_packages success_lines failure_lines lines ->
  exists l, l ∈ lines /\ line p = strip l /\ line p <> [] /\
    startswith hash (line p) = false /\
    status p = initial_status success_lines failure_lines (line p).
Proof.
  induction lines as [|l lines IH]; simpl; intros Hp.
  - inversion Hp.
  - destruct (bool_decide (strip l = []) || startswith hash (strip l)) eqn:Hskip.
    + destruct (IH Hp) as (l' & Hl' & Hrest). exists l'. split; [by right|exact Hrest].
    + apply elem_of_cons in Hp as [->|Hp].
      * exists l. apply orb_false_iff in Hskip as [Hne Hhash].
        apply bool_decide_eq_false in Hne.
        split; [by left|]. clear IH.
        unfold initial_status. rewrite !strip_idempotent.
        destruct (bool_decide (strip l ∈ success_lines)) eqn:Hs;
          [|destruct (bool_decide (strip l ∈ failure_lines)) eqn:Hf];
          rewrite ?line_set_status, ?status_set_status, ?line_Package_init,
            ?status_Package_init, ?strip_idempotent, ?Hs, ?Hf; auto.
      * destruct (IH Hp) as (l' & Hl' & Hrest). exists l'. split; [by right|exact Hrest].
Qed.

Lemma get_initial_packages_elem fs p :
  p ∈ get_initial_packages fs ->
  exists lines l, MASTER_LIST fs = Some lines /\ l ∈ lines /\ line p = strip l /\
    status p = initial_status (load_set (SUCCESS_LOG fs)) (load_set (FAILURE_LOG fs)) (line p).
Proof.
  unfold get_initial_packages. destruct (MASTER_LIST fs) as [lines|]; intros Hp.
  - destruct (load_packages_elem _ _ _ _ Hp) as (l & Hl & Hline & _ & _ & Hst).
    exists lines, l. auto.
  - inversion Hp.
Qed.

Lemma initial_not_processing fs p :
  p ∈ get_initial_packages fs -> status p = QUEUED \/ status p = SUCCESS \/ status p = FAILURE.
Proof.
  intros Hp. destruct (get_initial_packages_elem _ _ Hp) as (? & ? & _ & _ & _ & ->).
  unfold initial_status. repeat case_bool_decide; auto.
Qed.

(** ** The event loop: what one iteration does *)

Lemma drain_shape lines s :
  exists b ol, drain lines s = set_needs_redraw b (set_output_lines ol s).
Proof.
  unfold drain. revert s. induction lines as [|l lines IH]; intros s; simpl.
  - exists (needs_redraw s), (output_lines s). destruct s; reflexivity.
  - destruct l as [|c l]; [apply IH|].
    destruct (IH (set_needs_redraw true
                    (set_output_lines (output_lines s ++ [strip (c :: l)]) s)))
      as (b & ol & ->).
    exists b, ol. reflexivity.
Qed.

Lemma drain_frame lines s :
  packages (drain lines s) = packages s /\
  current_index (drain lines s) = current_index s /\
  process (drain lines s) = process s /\
  pkg_start_time (drain lines s) = pkg_start_time s /\
  stats_data (drain lines s) = stats_data s /\
  calls (drain lines s) = calls s /\
  height (drain lines s) = height s /\
  width (drain lines s) = width s /\
  start_time (drain lines s) = start_time s /\
  scroll_offset (drain lines s) = scroll_offset s /\
  screen (drain lines s) = screen s.
Proof. destruct (drain_shape lines s) as (b & ol & ->). repeat split. Qed.

Lemma drain_packages lines s : packages (drain lines s) = packages s.
Proof. apply drain_frame. Qed.

Lemma drain_current_index lines s : current_index (drain lines s) = current_index s.
Proof. apply drain_frame. Qed.

Lemma drain_process lines s : process (drain lines s) = process s.
Proof. apply drain_frame. Qed.

Lemma drain_pkg_start_time lines s : pkg_start_time (drain lines s) = pkg_start_time s.
Proof. apply drain_frame. Qed.

Lemma drain_stats_data lines s : stats_data (drain lines s) = stats_data s.
Proof. apply drain_frame. Qed.

Lemma drain_calls lines s : calls (drain lines s) = calls s.
Proof. apply drain_frame. Qed.

Lemma drain_height lines s : height (drain lines s) = height s.
Proof. apply drain_frame. Qed.

Lemma drain_width lines s : width (drain lines s) = width s.
Proof. apply drain_frame. Qed.

Lemma drain_start_time lines s : start_time (drain lines s) = start_time s.
Proof. apply drain_frame. Qed.

Lemma drain_scroll_offset lines s : scroll_offset (drain lines s) = scroll_offset s.
Proof. apply drain_frame. Qed.

Lemma drain_screen lines s : screen (drain lines s) = screen s.
Proof. apply drain_frame. Qed.

Ltac drain_frame :=
  rewrite ?drain_packages, ?drain_current_index, ?drain_process,
    ?drain_pkg_start_time, ?drain_stats_data, ?drain_calls, ?drain_height,
    ?drain_width, ?drain_start_time, ?drain_scroll_offset, ?drain_screen.

Lemma advance_moves s p :
  packages s !! current_index s = Some p -> status p <> PROCESSING ->
  advance_unless_processing s
  = set_needs_redraw true (set_current_index (S (current_index s)) s).
Proof.
  intros Hp Hs. unfold advance_unless_processing. rewrite Hp.
  destruct (decide (status p = PROCESSING)); [contradiction|reflexivity].
Qed.

Lemma advance_stays s p :
  packages s !! current_index s = Some p -> status p = PROCESSING ->
  advance_unless_processing s = set_needs_redraw true s.
Proof.
  intros Hp Hs. unfold advance_unless_processing. rewrite Hp.
  destruct (decide (status p = PROCESSING)); [reflexivity|contradiction].
Qed.

Lemma job_step_case e s r :
  proc_inv s -> (current_index s < length (packages s))%nat ->
  job_step e s = r -> job_case e s r.
Proof.
  intros [Hone Hrun] Hlt <-.
  destruct (lookup_lt_is_Some_2 _ _ Hlt) as [p Hp].
  unfold job_step. destruct (process s) as [cmd|] eqn:Hproc.
  - destruct Hrun as (p' & Hp' & Hst); [eauto|]. simplify_eq.
    unfold watch_job. destruct (poll e) as [rc|] eqn:Hpoll.
    + unfold finish_job. rewrite drain_packages, drain_current_index, Hp.
      destruct (rc =? 0) eqn:Hrc.
      * apply Z.eqb_eq in Hrc as ->. exact (jc_success e s cmd p Hproc Hp Hst Hpoll).
      * apply Z.eqb_neq in Hrc. exact (jc_failure e s cmd p rc Hproc Hp Hst Hpoll Hrc).
    + exact (jc_wait e s cmd p Hproc Hp Hst Hpoll).
  - unfold start_job. rewrite Hp.
    destruct (decide (status p = QUEUED)) as [Hq|Hq].
    + destruct (check_if_installed e (name p)) as [x|[|]] eqn:Hchk.
      * eapply jc_precheck_raise; eauto.
      * rewrite (advance_moves _ (set_status SKIPPED p)).
        -- exact (jc_skip e s p Hproc Hp Hq Hchk).
        -- simpl. rewrite list_lookup_alter_eq, Hp. reflexivity.
        -- discriminate.
      * destruct (subprocess_Popen e (install_cmd (name p))) as [|x] eqn:Hpopen.
        -- rewrite (advance_stays _ (set_status PROCESSING p)).
           ++ exact (jc_launch e s p Hproc Hp Hq Hchk Hpopen).
           ++ simpl. rewrite list_lookup_alter_eq, Hp. reflexivity.
           ++ reflexivity.
        -- exact (jc_spawn_raise e s p x Hproc Hp Hq Hchk Hpopen).
    + assert (Hnp : status p <> PROCESSING).
      { intros Hst. destruct (Hone _ _ Hp Hst) as [[? [=]] _]. }
      rewrite (advance_moves _ p Hp Hnp).
      apply (jc_visit e s p Hproc Hp). destruct (status p); auto; contradiction.
Qed.

Lemma alter_same_status (l : list Package) i p :
  l !! i = Some p -> alter (set_status (status p)) i l = l.
Proof.
  intros Hp. apply list_eq. intros j. destruct (decide (i = j)) as [<-|Hne].
  - rewrite list_lookup_alter_eq, Hp. destruct p; reflexivity.
  - apply list_lookup_alter_ne, Hne.
Qed.

Lemma record_time_frame now s :
  packages (record_time now s) = packages s /\
  current_index (record_time now s) = current_index s /\
  process (record_time now s) = process s /\
  calls (record_time now s) = calls s /\
  pkg_start_time (record_time now s) = pkg_start_time s.
Proof. unfold record_time. destruct (Float.ltb _ _); repeat split. Qed.

(** One iteration changes the status of the package under the cursor, along
    [trans], and nothing else in the queue; the child is running afterwards
    exactly when that status has become [PROCESSING], and the cursor stays
    exactly then. *)
Lemma job_case_effect e s r :
  job_case e s r ->
  exists p st',
    packages s !! current_index s = Some p /\
    packages (state_of r) = alter (set_status st') (current_index s) (packages s) /\
    trans (status p) st' /\
    (forall s', r = inr s' ->
       (is_Some (process s') <-> st' = PROCESSING) /\
       current_index s' =
         if decide (st' = PROCESSING) then current_index s else S (current_index s)).
Proof.
  unfold trans.
  destruct 1 as [p Hproc Hp Hst|p x Hproc Hp Hst Hchk|p Hproc Hp Hst Hchk
                |p x Hproc Hp Hst Hchk Hpo|p Hproc Hp Hst Hchk Hpo
                |cmd p Hproc Hp Hst Hpoll|cmd p Hproc Hp Hst Hpoll
                |cmd p rc Hproc Hp Hst Hpoll Hrc].
  - exists p, (status p). cbn. rewrite (alter_same_status _ _ _ Hp).
    split; [exact Hp|]. split; [reflexivity|]. split; [auto|].
    intros s' [= <-]. cbn. rewrite Hproc.
    destruct (decide (status p = PROCESSING)) as [E|E].
    + rewrite E in Hst. intuition discriminate.
    + split; [|reflexivity]. split; [intros [? [=]]|contradiction].
  - exists p, (status p). cbn. rewrite (alter_same_status _ _ _ Hp).
    split; [exact Hp|]. split; [reflexivity|]. split; [auto|]. discriminate.
  - exists p, SKIPPED. cbn.
    split; [exact Hp|]. split; [reflexivity|]. split; [auto|].
    intros s' [= <-]. cbn. rewrite Hproc.
    split; [|reflexivity]. split; [intros [? [=]]|discriminate].
  - exists p, PROCESSING. cbn.
    split; [exact Hp|]. split; [reflexivity|]. split; [auto|]. discriminate.
  - exists p, PROCESSING. cbn.
    split; [exact Hp|]. split; [reflexivity|]. split; [auto|].
    intros s' [= <-]. cbn. split; [|reflexivity]. split; eauto.
  - exists p, (status p). cbn. drain_frame. rewrite (alter_same_status _ _ _ Hp).
    split; [exact Hp|]. split; [reflexivity|]. split; [auto|].
    intros s' [= <-]. drain_frame. rewrite Hproc.
    destruct (decide (status p = PROCESSING)); [|contradiction].
    split; [|reflexivity]. split; eauto.
  - exists p, SUCCESS. unfold finished. cbn.
    destruct (record_time_frame (time_job e)
                (set_pkg_status SUCCESS (drain (readline e) s))) as (Hpk & Hci & _).
    rewrite Hpk. cbn. drain_frame.
    split; [exact Hp|]. split; [reflexivity|]. split; [auto|].
    intros s' [= <-]. cbn. rewrite Hci. cbn. drain_frame.
    split; [|reflexivity]. split; [intros [? [=]]|discriminate].
  - exists p, FAILURE. unfold finished. cbn. drain_frame.
    split; [exact Hp|]. split; [reflexivity|]. split; [auto|].
    intros s' [= <-]. cbn. drain_frame.
    split; [|reflexivity]. split; [intros [? [=]]|discriminate].
Qed.

Lemma job_case_inv e s s' : proc_inv s -> job_case e s (inr s') -> proc_inv s'.
Proof.
  intros [Hone Hrun] Hc.
  destruct (job_case_effect _ _ _ Hc) as (p & st' & Hp & Hpk & _ & Hctl).
  destruct (Hctl s' eq_refl) as [Hproc Hci]. simpl in Hpk.
  split.
  - intros j q Hj Hq. rewrite Hpk in Hj.
    destruct (decide (current_index s = j)) as [<-|Hne].
    + rewrite list_lookup_alter_eq, Hp in Hj. injection Hj as <-. simpl in Hq.
      rewrite Hci. destruct (decide (st' = PROCESSING)); [|contradiction].
      split; [by apply Hproc|reflexivity].
    + rewrite list_lookup_alter_ne in Hj by exact Hne.
      destruct (Hone _ _ Hj Hq) as [_ ->]. contradiction.
  - intros Hsome. apply Hproc in Hsome. rewrite Hci, Hpk.
    destruct (decide (st' = PROCESSING)); [|contradiction].
    exists (set_status st' p). rewrite list_lookup_alter_eq, Hp. auto.
Qed.

(** Every external call is made for the package under the cursor, and only
    while that package is [QUEUED]. *)
Lemma job_case_calls e s r :
  job_case e s r ->
  exists new, calls (state_of r) = calls s ++ new /\
    forall c, c ∈ new ->
      exists p, packages s !! call_job c = Some p /\ status p = QUEUED.
Proof.
  destruct 1 as [p Hproc Hp Hst|p x Hproc Hp Hst Hchk|p Hproc Hp Hst Hchk
                |p x Hproc Hp Hst Hchk Hpo|p Hproc Hp Hst Hchk Hpo
                |cmd p Hproc Hp Hst Hpoll|cmd p Hproc Hp Hst Hpoll
                |cmd p rc Hproc Hp Hst Hpoll Hrc].
  - exists []. cbn. rewrite app_nil_r. split; [reflexivity|]. intros c Hc. inversion Hc.
  - exists [DpkgQuery (current_index s) (name p)]. cbn. split; [reflexivity|].
    intros c ->%list_elem_of_singleton. eauto.
  - exists [DpkgQuery (current_index s) (name p)]. cbn. split; [reflexivity|].
    intros c ->%list_elem_of_singleton. eauto.
  - exists [DpkgQuery (current_index s) (name p);
            Popen (current_index s) (install_cmd (name p))].
    cbn. rewrite <- app_assoc. split; [reflexivity|].
    intros c Hc. apply elem_of_cons in Hc as [->|Hc];
      [|apply list_elem_of_singleton in Hc as ->]; eauto.
  - exists [DpkgQuery (current_index s) (name p);
            Popen (current_index s) (install_cmd (name p))].
    cbn. rewrite <- app_assoc. split; [reflexivity|].
    intros c Hc. apply elem_of_cons in Hc as [->|Hc];
      [|apply list_elem_of_singleton in Hc as ->]; eauto.
  - exists []. cbn. drain_frame. rewrite app_nil_r. split; [reflexivity|].
    intros c Hc. inversion Hc.
  - exists []. unfold finished. cbn.
    destruct (record_time_frame (time_job e)
                (set_pkg_status SUCCESS (drain (readline e) s))) as (_ & _ & _ & -> & _).
    cbn. drain_frame. rewrite app_nil_r. split; [reflexivity|]. intros c Hc. inversion Hc.
  - exists []. unfold finished. cbn. drain_frame. rewrite app_nil_r.
    split; [reflexivity|]. intros c Hc. inversion Hc.
Qed.

(** What [job_step] leaves alone. *)
Lemma job_case_frame e s r :
  job_case e s r ->
  height (state_of r) = height s /\ width (state_of r) = width s /\
  start_time (state_of r) = start_time s /\ screen (state_of r) = screen s /\
  scroll_offset (state_of r) = scroll_offset s /\
  total (stats_data (state_of r)) = total (stats_data s) /\
  etr (stats_data (state_of r)) = etr (stats_data s) /\
  exists new, times (stats_data (state_of r)) = times (stats_data s) ++ new.
Proof.
  destruct 1; unfold finished, record_time; cbn; drain_frame;
    try destruct (Float.ltb _ _); cbn; drain_frame;
    repeat (split; [reflexivity|]);
    solve [exists []; by rewrite app_nil_r | eexists; reflexivity].
Qed.

Lemma job_case_clock e s s' :
  job_case e s (inr s') ->
  (is_Some (process s) -> after_epoch (pkg_start_time s)) ->
  after_epoch (time_job e) ->
  is_Some (process s') -> after_epoch (pkg_start_time s').
Proof.
  intros Hc Hs Hnow Hp'. remember (inr s') as r eqn:Hr.
  destruct Hc; simplify_eq; unfold finished in *; cbn in *;
    revert Hp'; drain_frame; intros Hp';
    first [by destruct Hp' as [? [=]] | by auto].
Qed.

(** ** Input handling *)

Lemma handle_input_Some key s s1 :
  handle_input key s = Some s1 ->
  key <> ord_q /\ same_job s s1 /\
  (scroll_offset s1 = scroll_offset s \/ scroll_ok s1).
Proof.
  unfold handle_input, same_job, scroll_ok, max_scroll_of.
  destruct (key =? ord_q) eqn:Hq; [discriminate|].
  apply Z.eqb_neq in Hq.
  destruct (key =? ord_h); [|destruct (key =? ord_s); [|destruct (is_scroll_key key)]];
    intros [= <-]; cbn; repeat (split; [done|]); auto.
  right. lia.
Qed.

Lemma handle_input_None key s : handle_input key s = None -> key = ord_q.
Proof.
  unfold handle_input. destruct (key =? ord_q) eqn:Hq.
  - intros _. by apply Z.eqb_eq.
  - destruct (key =? ord_h); [|destruct (key =? ord_s); [|destruct (is_scroll_key key)]];
      discriminate.
Qed.

Lemma same_job_proc_inv s s1 : same_job s s1 -> proc_inv s -> proc_inv s1.
Proof.
  intros (Hpk & Hci & Hpr & _). unfold proc_inv. by rewrite Hpk, Hci, Hpr.
Qed.

(** ** Statistics, scrolling and drawing *)

Lemma redraw_frame s :
  packages (redraw s) = packages s /\ current_index (redraw s) = current_index s /\
  process (redraw s) = process s /\ pkg_start_time (redraw s) = pkg_start_time s /\
  stats_data (redraw s) = stats_data s /\ calls (redraw s) = calls s /\
  height (redraw s) = height s /\ width (redraw s) = width s /\
  start_time (redraw s) = start_time s /\ scroll_offset (redraw s) = scroll_offset s.
Proof. unfold redraw. destruct (_ || _); repeat split. Qed.

Lemma finish_tick_frame e s :
  packages (finish_tick e s) = packages s /\
  current_index (finish_tick e s) = current_index s /\
  process (finish_tick e s) = process s /\
  pkg_start_time (finish_tick e s) = pkg_start_time s /\
  calls (finish_tick e s) = calls s /\
  height (finish_tick e s) = height s /\ width (finish_tick e s) = width s /\
  start_time (finish_tick e s) = start_time s /\
  times (stats_data (finish_tick e s)) = times (stats_data s) /\
  total (stats_data (finish_tick e s)) = total (stats_data s).
Proof.
  unfold finish_tick.
  destruct (redraw_frame (auto_scroll (update_stats (time_stats e) s)))
    as (-> & -> & -> & -> & -> & -> & -> & -> & -> & _).
  repeat split.
Qed.

Lemma finish_tick_proc_inv e s : proc_inv s -> proc_inv (finish_tick e s).
Proof.
  destruct (finish_tick_frame e s) as (Hpk & Hci & Hpr & _).
  unfold proc_inv. by rewrite Hpk, Hci, Hpr.
Qed.

(** ** One iteration, case by case *)

Lemma tick_cases e s :
  proc_inv s -> loop_cond s ->
  (getch e = ord_q /\ tick e s = Break (set_needs_redraw false s)) \/
  exists s1 r,
    handle_input (getch e) (set_needs_redraw false s) = Some s1 /\
    same_job s s1 /\ job_case e s1 r /\ tick e s = outcome_of e r.
Proof.
  intros Hinv Hlt. unfold tick.
  destruct (handle_input (getch e) (set_needs_redraw false s)) as [s1|] eqn:Hin.
  - right. destruct (handle_input_Some _ _ _ Hin) as (_ & Hsame & _).
    assert (Hsame' : same_job s s1) by exact Hsame.
    exists s1, (job_step e s1).
    split; [reflexivity|]. split; [exact Hsame'|]. split.
    + apply job_step_case; [by eapply same_job_proc_inv| |reflexivity].
      destruct Hsame' as (Hpk & Hci & _). unfold loop_cond in Hlt. by rewrite Hpk, Hci.
    + unfold outcome_of, finish_tick. destruct (job_step e s1) as [[x s2]|s2]; reflexivity.
  - left. split; [by eapply handle_input_None|reflexivity].
Qed.

Lemma tick_proc_inv e s s' :
  proc_inv s -> loop_cond s -> tick e s = Continue s' -> proc_inv s'.
Proof.
  intros Hinv Hlt Ht.
  destruct (tick_cases e s Hinv Hlt) as [[_ Hb]|(s1 & r & _ & Hsame & Hc & Ho)];
    [congruence|].
  rewrite Ho in Ht. destruct r as [[x s2]|s2]; simpl in Ht; [discriminate|].
  injection Ht as <-. apply finish_tick_proc_inv.
  eapply job_case_inv; [|exact Hc]. by eapply same_job_proc_inv.
Qed.

(** The queue after one iteration, whatever its outcome. *)
Lemma tick_packages e s :
  proc_inv s -> loop_cond s ->
  exists p st',
    packages s !! current_index s = Some p /\
    packages (outcome_state (tick e s))
    = alter (set_status st') (current_index s) (packages s) /\
    trans (status p) st'.
Proof.
  intros Hinv Hlt.
  destruct (tick_cases e s Hinv Hlt) as [[_ ->]|(s1 & r & _ & Hsame & Hc & ->)].
  - destruct (lookup_lt_is_Some_2 _ _ Hlt) as [p Hp]. exists p, (status p).
    simpl. rewrite (alter_same_status _ _ _ Hp). unfold trans. auto.
  - destruct (job_case_effect _ _ _ Hc) as (p & st' & Hp & Hpk & Htr & _).
    destruct Hsame as (Epk & Eci & _). rewrite Epk, Eci in *.
    exists p, st'. repeat split; auto.
    destruct r as [[x s2]|s2]; simpl in *; [exact Hpk|].
    destruct (finish_tick_frame e s2) as (-> & _). exact Hpk.
Qed.

Lemma tick_calls e s :
  proc_inv s -> loop_cond s ->
  exists new, calls (outcome_state (tick e s)) = calls s ++ new /\
    forall c, c ∈ new ->
      exists p, packages s !! call_job c = Some p /\ status p = QUEUED.
Proof.
  intros Hinv Hlt.
  destruct (tick_cases e s Hinv Hlt) as [[_ ->]|(s1 & r & _ & Hsame & Hc & ->)].
  - exists []. simpl. rewrite app_nil_r. split; [reflexivity|]. intros c Hc. inversion Hc.
  - destruct (job_case_calls _ _ _ Hc) as (new & Hnew & Hq).
    destruct Hsame as (Epk & _ & _ & _ & _ & Ecalls & _). rewrite Epk, Ecalls in *.
    exists new. split; [|exact Hq].
    destruct r as [[x s2]|s2]; simpl in *; [exact Hnew|].
    destruct (finish_tick_frame e s2) as (_ & _ & _ & _ & -> & _). exact Hnew.
Qed.

(** ** Runs *)

Lemma run_invariant (P : State -> Prop) s0 :
  P s0 ->
  (forall e s s', P s -> loop_cond s -> tick e s = Continue s' -> P s') ->
  forall envs s, run s0 envs s -> P s.
Proof.
  intros H0 Hstep envs s Hrun. induction Hrun as [|envs s1 e s2 _ IH Hlt Ht].
  - exact H0.
  - exact (Hstep e s1 s2 IH Hlt Ht).
Qed.

Lemma run_app s0 envs1 s1 envs2 s2 :
  run s0 envs1 s1 -> run s1 envs2 s2 -> run s0 (envs1 ++ envs2) s2.
Proof.
  intros H1 H2. induction H2 as [|envs s e s' _ IH Hlt Ht].
  - by rewrite app_nil_r.
  - rewrite app_assoc. by eapply run_snoc.
Qed.

Lemma run_cons s0 e s1 envs s2 :
  loop_cond s0 -> tick e s0 = Continue s1 -> run s1 envs s2 -> run s0 (e :: envs) s2.
Proof.
  intros Hlt Ht Hrun. change (e :: envs) with ([] ++ [e] ++ envs).
  rewrite app_assoc. eapply run_app; [|exact Hrun].
  eapply run_snoc; [apply run_nil|exact Hlt|exact Ht].
Qed.

Lemma run_proc_inv s0 envs s : proc_inv s0 -> run s0 envs s -> proc_inv s.
Proof.
  intros H0. apply run_invariant; [exact H0|].
  intros e s1 s2. apply tick_proc_inv.
Qed.

Lemma init_proc_inv fs h w now : proc_inv (init fs h w now).
Proof.
  split; simpl.
  - intros j p Hj Hp. apply list_elem_of_lookup_2 in Hj.
    destruct (initial_not_processing _ _ Hj) as [H|[H|H]]; congruence.
  - intros [? [=]].
Qed.

(** The state in which [main_loop] stops is reached by a run, followed by at
    most one more iteration, the one that quits or raises. *)
Lemma main_loop_run envs s0 :
  exists envs1 s1, run s0 envs1 s1 /\
    (exit_state (main_loop envs s0) = s1 \/
     exists e, loop_cond s1 /\
       exit_state (main_loop envs s0) = outcome_state (tick e s1)).
Proof.
  revert s0. induction envs as [|e envs IH]; intros s0; simpl.
  - exists [], s0. split; [apply run_nil|]. left. by case_bool_decide.
  - case_bool_decide as Hlt.
    + destruct (tick e s0) as [s'|s'|x s'] eqn:Ht.
      * destruct (IH s') as (envs1 & s1 & Hrun & Hexit).
        exists (e :: envs1), s1. split; [by eapply run_cons|exact Hexit].
      * exists [], s0. split; [apply run_nil|]. right. exists e. by rewrite Ht.
      * exists [], s0. split; [apply run_nil|]. right. exists e. by rewrite Ht.
    + exists [], s0. split; [apply run_nil|]. by left.
Qed.

(** ** Status histories *)

Lemma tick_evolves e s :
  proc_inv s -> loop_cond s -> evolves s (outcome_state (tick e s)).
Proof.
  intros Hinv Hlt. unfold evolves.
  destruct (tick_packages e s Hinv Hlt) as (p & st' & Hp & -> & Htr).
  split; [apply length_alter|].
  intros j q Hj. destruct (decide (current_index s = j)) as [<-|Hne].
  - exists (set_status st' p). rewrite list_lookup_alter_eq, Hp.
    simplify_eq. auto.
  - exists q. rewrite list_lookup_alter_ne by exact Hne. unfold trans. auto.
Qed.

Lemma trans_not_requeued a b : trans a b -> a <> QUEUED -> b <> QUEUED.
Proof. unfold trans. intros [-> | [[-> _] | [_ [-> | ->]]]]; congruence. Qed.

Lemma trans_resolved a b : trans a b -> resolved a -> b = a.
Proof.
  unfold trans, resolved.
  intros [-> | [[-> _] | [-> _]]] [?|[?|?]]; congruence.
Qed.

Lemma evolves_settled s s' : evolves s s' -> settled s s'.
Proof.
  intros [Hlen H]. split; [exact Hlen|]. intros j q Hj.
  destruct (H j q Hj) as (q' & Hq' & Hl & Hn & Htr).
  exists q'. repeat split; auto.
  - by apply trans_not_requeued.
  - by apply trans_resolved.
Qed.

Lemma settled_refl s : settled s s.
Proof. split; [reflexivity|]. intros j q Hj. exists q. auto. Qed.

Lemma settled_trans s1 s2 s3 : settled s1 s2 -> settled s2 s3 -> settled s1 s3.
Proof.
  intros [L1 H1] [L2 H2]. split; [congruence|]. intros j q Hj.
  destruct (H1 j q Hj) as (q2 & Hq2 & Hl2 & Hn2 & Hnq2 & Hr2).
  destruct (H2 j q2 Hq2) as (q3 & Hq3 & Hl3 & Hn3 & Hnq3 & Hr3).
  exists q3. repeat split; try congruence.
  - auto.
  - intros Hr. rewrite Hr3; [auto|]. by rewrite Hr2.
Qed.

Lemma run_settled s0 envs s : proc_inv s0 -> run s0 envs s -> settled s0 s.
Proof.
  intros H0 Hrun. induction Hrun as [|envs s1 e s2 Hrun IH Hlt Ht].
  - apply settled_refl.
  - eapply settled_trans; [exact IH|]. apply evolves_settled.
    pose proof (tick_evolves e s1 (run_proc_inv _ _ _ H0 Hrun) Hlt) as Hev.
    by rewrite Ht in Hev.
Qed.

(** ** External calls *)

Lemma settled_queued_before s0 s j p :
  settled s0 s -> packages s !! j = Some p -> status p = QUEUED ->
  exists p0, packages s0 !! j = Some p0 /\ status p0 = QUEUED.
Proof.
  intros [Hlen H] Hj Hq.
  assert (Hlt : (j < length (packages s0))%nat).
  { rewrite <- Hlen. by eapply lookup_lt_Some. }
  destruct (lookup_lt_is_Some_2 _ _ Hlt) as [p0 Hp0].
  exists p0. split; [exact Hp0|].
  destruct (H j p0 Hp0) as (q' & Hq' & _ & _ & Hnq & _). simplify_eq.
  destruct (decide (status p0 = QUEUED)) as [?|Hne]; [done|].
  by destruct (Hnq Hne).
Qed.

Lemma tick_calls_for_queued s0 envs s e :
  proc_inv s0 -> run s0 envs s -> loop_cond s -> calls_for_queued s0 s ->
  calls_for_queued s0 (outcome_state (tick e s)).
Proof.
  intros H0 Hrun Hlt Hcalls c Hc.
  destruct (tick_calls e s (run_proc_inv _ _ _ H0 Hrun) Hlt) as (new & Hnew & Hq).
  rewrite Hnew in Hc. apply elem_of_app in Hc as [Hc|Hc]; [by apply Hcalls|].
  destruct (Hq c Hc) as (p & Hp & Hst).
  eapply settled_queued_before; eauto using run_settled.
Qed.

Lemma run_calls_for_queued s0 envs s :
  proc_inv s0 -> calls s0 = [] -> run s0 envs s -> calls_for_queued s0 s.
Proof.
  intros H0 Hnil Hrun. induction Hrun as [|envs s1 e s2 Hrun IH Hlt Ht].
  - intros c Hc. rewrite Hnil in Hc. inversion Hc.
  - pose proof (tick_calls_for_queued s0 envs s1 e H0 Hrun Hlt IH) as H.
    by rewrite Ht in H.
Qed.

(** ** Counting by status *)

Lemma count_status_cons sts p pkgs :
  count_status sts (p :: pkgs)
  = ((if bool_decide (status p ∈ sts) then 1 else 0) + count_status sts pkgs)%nat.
Proof.
  unfold count_status. rewrite filter_cons.
  case_bool_decide; destruct (decide (status p ∈ sts)); try contradiction; reflexivity.
Qed.

Lemma count_status_partition pkgs :
  (count_status [SUCCESS; FAILURE; SKIPPED] pkgs + count_status [QUEUED] pkgs
   + count_status [PROCESSING] pkgs = length pkgs)%nat.
Proof.
  induction pkgs as [|p pkgs IH]; [reflexivity|].
  rewrite !count_status_cons. simpl length.
  destruct (status p);
    repeat match goal with
      | |- context [bool_decide ?P] =>
          let b := eval vm_compute in (bool_decide P) in
          change (bool_decide P) with b
      end; cbv iota; lia.
Qed.

Lemma count_processing_zero pkgs :
  (forall j p, pkgs !! j = Some p -> status p <> PROCESSING) ->
  count_status [PROCESSING] pkgs = 0%nat.
Proof.
  induction pkgs as [|p pkgs IH]; intros H; [reflexivity|].
  rewrite count_status_cons, IH.
  - case_bool_decide as Hp; [|reflexivity].
    apply list_elem_of_singleton in Hp. by destruct (H 0%nat p eq_refl).
  - intros j q Hj. exact (H (S j) q Hj).
Qed.

Lemma count_processing_le_1 pkgs i :
  (forall j p, pkgs !! j = Some p -> status p = PROCESSING -> j = i) ->
  (count_status [PROCESSING] pkgs <= 1)%nat.
Proof.
  revert i. induction pkgs as [|p pkgs IH]; intros i H; [unfold count_status; simpl; lia|].
  rewrite count_status_cons. case_bool_decide as Hp.
  - apply list_elem_of_singleton in Hp.
    rewrite count_processing_zero; [lia|].
    intros j q Hj Hq. pose proof (H 0%nat p eq_refl Hp). pose proof (H (S j) q Hj Hq). lia.
  - simpl. apply (IH (pred i)). intros j q Hj Hq.
    pose proof (H (S j) q Hj Hq). lia.
Qed.

Lemma count_processing_pos pkgs :
  Exists (fun p => status p = PROCESSING) pkgs
  <-> (0 < count_status [PROCESSING] pkgs)%nat.
Proof.
  induction pkgs as [|p pkgs IH].
  - split; [inversion 1|unfold count_status; simpl; lia].
  - rewrite Exists_cons, count_status_cons, IH.
    case_bool_decide as Hp; rewrite list_elem_of_singleton in Hp; split.
    + lia.
    + auto.
    + intros [?|?]; [contradiction|lia].
    + intros ?. right. lia.
Qed.

Lemma processing_flag_count pkgs :
  (count_status [PROCESSING] pkgs <= 1)%nat ->
  processing_flag pkgs = count_status [PROCESSING] pkgs.
Proof.
  intros Hle. unfold processing_flag.
  case_bool_decide as H; rewrite count_processing_pos in H; lia.
Qed.

(** ** Statistics and scrolling over one iteration *)

Lemma finish_tick_stats e s :
  processed (stats_data (finish_tick e s))
  = count_status [SUCCESS; FAILURE; SKIPPED] (packages s) /\
  etr (stats_data (finish_tick e s))
  = match times (stats_data s) with
    | [] => etr (stats_data s)
    | _ => Some (etr_of (times (stats_data s)) (packages s))
    end.
Proof.
  unfold finish_tick.
  destruct (redraw_frame (auto_scroll (update_stats (time_stats e) s)))
    as (_ & _ & _ & _ & -> & _).
  split; reflexivity.
Qed.

Lemma finish_tick_scroll e s :
  scroll_offset (finish_tick e s)
  = Z.max 0 (Z.min (Z.of_nat (current_index s) - (height s - 2) / 2) (max_scroll_of s)).
Proof.
  unfold finish_tick.
  destruct (redraw_frame (auto_scroll (update_stats (time_stats e) s)))
    as (_ & _ & _ & _ & _ & _ & _ & _ & _ & ->).
  reflexivity.
Qed.

Lemma finish_tick_screen e s :
  (needs_redraw s = false /\ process s = None /\ screen (finish_tick e s) = screen s) \/
  ((needs_redraw s = true \/ is_Some (process s)) /\
   screen (finish_tick e s)
   = Some (draw_package_list (height s) (width s / 2) (packages s)
             (scroll_offset (finish_tick e s)))).
Proof.
  rewrite finish_tick_scroll. unfold finish_tick, redraw. cbn.
  destruct (needs_redraw s); cbn; [right; auto|].
  case_bool_decide as Hp; cbn; [right; auto|].
  left. repeat split. destruct (process s); [|reflexivity].
  exfalso. apply Hp. eauto.
Qed.

Lemma draw_no_thumb h w pkgs off :
  Z.of_nat (length pkgs) <= h - 2 -> thumb (draw_package_list h w pkgs off) = None.
Proof.
  intros Hle. unfold draw_package_list. cbn.
  destruct (h - 2 <? Z.of_nat (length pkgs)) eqn:E; [|reflexivity].
  apply Z.ltb_lt in E. lia.
Qed.

Lemma tick_Continue e s s' :
  proc_inv s -> loop_cond s -> tick e s = Continue s' ->
  exists s1 s2,
    handle_input (getch e) (set_needs_redraw false s) = Some s1 /\
    same_job s s1 /\ job_case e s1 (inr s2) /\ s' = finish_tick e s2.
Proof.
  intros Hinv Hlt Ht.
  destruct (tick_cases e s Hinv Hlt) as [[_ Hb]|(s1 & r & Hin & Hsame & Hc & Ho)];
    [congruence|].
  rewrite Ho in Ht. destruct r as [[x s2]|s2]; simpl in Ht; [discriminate|].
  injection Ht as <-. eauto 10.
Qed.

Lemma tick_view e s s' :
  proc_inv s -> loop_cond s -> tick e s = Continue s' ->
  height s' = height s /\ width s' = width s /\
  length (packages s') = length (packages s) /\
  total (stats_data s') = total (stats_data s) /\
  (exists new, times (stats_data s') = times (stats_data s) ++ new) /\
  processed (stats_data s') = count_status [SUCCESS; FAILURE; SKIPPED] (packages s') /\
  scroll_ok s' /\ (etr_ok s -> etr_ok s') /\ (screen_ok s -> screen_ok s').
Proof.
  intros Hinv Hlt Ht.
  destruct (tick_Continue _ _ _ Hinv Hlt Ht) as (s1 & s2 & _ & Hsame & Hc & ->).
  destruct Hsame as (Epk & Eci & Epr & Est & Esd & Ecl & Eh & Ew & Etm & Esc).
  destruct (job_case_frame _ _ _ Hc) as (Fh & Fw & Ftm & Fsc & Fso & Ftot & Fetr & new & Fnew).
  destruct (job_case_effect _ _ _ Hc) as (p & st' & Hp & Fpk & _).
  simpl in *.
  destruct (finish_tick_frame e s2) as (Gpk & Gci & Gpr & Gst & Gcl & Gh & Gw & Gtm & Gti & Gtot).
  destruct (finish_tick_stats e s2) as (Gproc & Getr).
  assert (Hlen : length (packages s2) = length (packages s)).
  { rewrite Fpk, length_alter. congruence. }
  split; [congruence|]. split; [congruence|]. split; [congruence|].
  split; [congruence|]. split; [exists new; congruence|].
  split; [congruence|]. split; [|split].
  - unfold scroll_ok. rewrite finish_tick_scroll.
    unfold max_scroll_of. rewrite Gpk, Gh. lia.
  - unfold etr_ok. intros Hok. rewrite Getr, Gti, Gpk.
    destruct (times (stats_data s2)) as [|t ts] eqn:Hts; [|reflexivity].
    rewrite Fetr, Esd, Hok.
    destruct (times (stats_data s)) as [|t ts] eqn:Hts'; [reflexivity|].
    rewrite Esd, Hts' in Fnew. discriminate.
  - unfold screen_ok. intros Hok pane Hpane Hle. rewrite Gpk, Gh in Hle.
    destruct (finish_tick_screen e s2) as [(_ & _ & Hs)|(_ & Hs)]; rewrite Hs in Hpane.
    + apply (Hok pane); [congruence|]. rewrite <- Hlen. congruence.
    + injection Hpane as <-. by apply draw_no_thumb.
Qed.

(** ** Statistics and scrolling over a run *)

Lemma run_view_inv s0 envs s :
  proc_inv s0 -> scroll_ok s0 -> etr_ok s0 -> screen_ok s0 ->
  run s0 envs s -> view_inv s0 s.
Proof.
  intros H0 Hso Hetr Hsc Hrun. induction Hrun as [|envs s1 e s2 Hrun IH Hlt Ht].
  - unfold view_inv. auto 10.
  - destruct IH as (Ih & Iw & Il & It & _ & Ietr & Isc).
    destruct (tick_view e s1 s2 (run_proc_inv _ _ _ H0 Hrun) Hlt Ht)
      as (Th & Tw & Tl & Tt & _ & _ & Tso & Tetr & Tsc).
    unfold view_inv.
    split; [congruence|]. split; [congruence|]. split; [congruence|].
    split; [congruence|]. auto.
Qed.

Lemma init_view fs h w now :
  scroll_ok (init fs h w now) /\ etr_ok (init fs h w now) /\ screen_ok (init fs h w now).
Proof.
  unfold scroll_ok, etr_ok, screen_ok, max_scroll_of. simpl.
  split; [lia|]. split; [reflexivity|]. discriminate.
Qed.

Lemma run_times s0 envs s :
  proc_inv s0 -> run s0 envs s ->
  exists new, times (stats_data s) = times (stats_data s0) ++ new.
Proof.
  intros H0 Hrun. induction Hrun as [|envs s1 e s2 Hrun [new IH] Hlt Ht].
  - exists []. by rewrite app_nil_r.
  - destruct (tick_view e s1 s2 (run_proc_inv _ _ _ H0 Hrun) Hlt Ht)
      as (_ & _ & _ & _ & [new' Hnew] & _).
    exists (new ++ new'). rewrite Hnew, IH. by rewrite app_assoc.
Qed.

Lemma run_processed s0 envs s :
  proc_inv s0 -> run s0 envs s -> envs <> [] ->
  processed (stats_data s) = count_status [SUCCESS; FAILURE; SKIPPED] (packages s).
Proof.
  intros H0 Hrun Hne. destruct Hrun as [|envs s1 e s2 Hrun Hlt Ht]; [done|].
  apply (tick_view e s1 s2 (run_proc_inv _ _ _ H0 Hrun) Hlt Ht).
Qed.

(** ** The clock *)

Lemma run_clock s0 envs s :
  proc_inv s0 -> clock_ok s0 ->
  Forall (fun e => after_epoch (time_job e)) envs ->
  run s0 envs s -> clock_ok s.
Proof.
  intros H0 Hc0 Hall Hrun. induction Hrun as [|envs s1 e s2 Hrun IH Hlt Ht].
  - exact Hc0.
  - apply Forall_app in Hall as [Hall He]. apply Forall_inv in He.
    specialize (IH Hall).
    destruct (tick_Continue _ _ _ (run_proc_inv _ _ _ H0 Hrun) Hlt Ht)
      as (s1' & s2' & _ & Hsame & Hc & ->).
    destruct Hsame as (_ & _ & Epr & Est & _).
    destruct (finish_tick_frame e s2') as (_ & _ & Gpr & Gst & _).
    unfold clock_ok. rewrite Gpr, Gst.
    eapply job_case_clock; [exact Hc| |exact He].
    rewrite Epr, Est. exact IH.
Qed.

(** ** Running a list of iterations *)

Lemma run_ticks_run envs s s' : run_ticks envs s = Some s' -> run s envs s'.
Proof.
  revert s. induction envs as [|e envs IH]; intros s; simpl.
  - intros [= <-]. apply run_nil.
  - case_bool_decide as Hlt; [|discriminate].
    destruct (tick e s) as [s1| |] eqn:Ht; try discriminate.
    intros H. eapply run_cons; eauto.
Qed.

(** ** The scroll offset a tick starts with does not matter *)

Lemma drain_set_scroll o lines s :
  drain lines (set_scroll_offset o s) = set_scroll_offset o (drain lines s).
Proof.
  unfold drain. revert s. induction lines as [|l lines IH]; intros s; [reflexivity|].
  simpl. destruct l as [|c l]; [apply IH|].
  rewrite <- IH. reflexivity.
Qed.

Lemma job_step_set_scroll o e s :
  job_step e (set_scroll_offset o s) = map_state (set_scroll_offset o) (job_step e s).
Proof.
  unfold job_step, watch_job, start_job, finish_job, advance_unless_processing.
  rewrite drain_set_scroll. cbn.
  repeat (case_match; simplify_eq; cbn in *; try reflexivity).
Qed.

Lemma handle_input_set_scroll key o s :
  exists o',
    handle_input key (set_scroll_offset o s) = set_scroll_offset o' <$> handle_input key s.
Proof.
  unfold handle_input. cbn.
  destruct (key =? ord_q); [by exists o|].
  destruct (key =? ord_h); [by exists o|].
  destruct (key =? ord_s); [by exists o|].
  destruct (is_scroll_key key); [|by exists o].
  eexists. unfold max_scroll_of. cbn. reflexivity.
Qed.

Lemma finish_tick_set_scroll o e s :
  finish_tick e (set_scroll_offset o s) = finish_tick e s.
Proof. reflexivity. Qed.

Lemma tick_set_scroll o e s s' :
  tick e s = Continue s' -> tick e (set_scroll_offset o s) = Continue s'.
Proof.
  unfold tick.
  change (set_needs_redraw false (set_scroll_offset o s))
    with (set_scroll_offset o (set_needs_redraw false s)).
  destruct (handle_input_set_scroll (getch e) o (set_needs_redraw false s)) as [o' ->].
  destruct (handle_input (getch e) (set_needs_redraw false s)) as [s1|]; [|discriminate].
  simpl. rewrite job_step_set_scroll.
  destruct (job_step e s1) as [[x s2]|s2]; [discriminate|]. simpl.
  intros [= <-]. f_equal.
Qed.

Lemma tick_Continue_finish e s s' :
  tick e s = Continue s' ->
  exists s2, s' = finish_tick e s2 /\ height s2 = height s /\ width s2 = width s.
Proof.
  unfold tick.
  destruct (handle_input (getch e) (set_needs_redraw false s)) as [s1|] eqn:Hin;
    [|discriminate].
  destruct (handle_input_Some _ _ _ Hin) as (_ & Hsame & _).
  destruct Hsame as (_ & _ & _ & _ & _ & _ & Eh & Ew & _). simpl in Eh, Ew.
  destruct (job_step e s1) as [[x s2]|s2] eqn:Hjob; [discriminate|].
  intros [= <-]. exists s2. split; [reflexivity|].
  rewrite <- Eh, <- Ew. clear Hin Eh Ew.
  unfold job_step, watch_job, start_job, finish_job, advance_unless_processing in Hjob.
  destruct (drain_shape (readline e) s1) as (b & ol & Hd). rewrite Hd in Hjob.
  repeat (case_match; simplify_eq; cbn in *); auto.
Qed.

(** ** The worked run *)

Lemma demo_run : run (init fs_demo 24 80 (Float.of_int 999)) envs_demo s_demo.
Proof. apply run_ticks_run. vm_compute. reflexivity. Qed.

Example demo_statuses : status <$> packages s_demo = [SUCCESS; PROCESSING; SUCCESS].
Proof. vm_compute. reflexivity. Qed.

Lemma scrolled_run :
  run (init fs_eight 6 80 (Float.of_int 999))
    [env_installed; env_installed; env_installed] s_scrolled.
Proof. apply run_ticks_run. vm_compute. reflexivity. Qed.

(** Three jobs skipped: the cursor is on the fourth, the pane is drawn from
    the second row of the queue on, with the thumb on its first row. *)
Example scrolled_view :
  current_index s_scrolled = 3%nat /\ scroll_offset s_scrolled = 1 /\
  (thumb <$> screen s_scrolled) = Some (Some 0).
Proof. vm_compute. auto. Qed.

(** * The properties of the specification *)

(** C10. A key that is in both the success set and the failure set gives the
    initial status [SUCCESS]: the success set is looked at first. *)
Theorem success_takes_precedence fs p :
  p ∈ get_initial_packages fs ->
  line p ∈ load_set (SUCCESS_LOG fs) ->
  line p ∈ load_set (FAILURE_LOG fs) ->
  status p = SUCCESS.
Proof.
  intros Hp Hs _.
  destruct (get_initial_packages_elem _ _ Hp) as (_ & _ & _ & _ & _ & ->).
  unfold initial_status. by rewrite bool_decide_eq_true_2.
Qed.

Lemma success_takes_precedence_witness :
  let p := {| line := py "alpha"; name := py "alpha"; status := SUCCESS |} in
  p ∈ get_initial_packages fs_both /\
  line p ∈ load_set (SUCCESS_LOG fs_both) /\
  line p ∈ load_set (FAILURE_LOG fs_both) /\
  status p = SUCCESS.
Proof.
  intros p.
  assert (H1 : p ∈ get_initial_packages fs_both)
    by (apply (list_elem_of_lookup_2 _ 0%nat); vm_compute; reflexivity).
  assert (H2 : line p ∈ load_set (SUCCESS_LOG fs_both))
    by (apply (bool_decide_unpack _); vm_compute; exact I).
  assert (H3 : line p ∈ load_set (FAILURE_LOG fs_both))
    by (apply (bool_decide_unpack _); vm_compute; exact I).
  exact (conj H1 (conj H2 (conj H3 (success_takes_precedence fs_both p H1 H2 H3)))).
Defined.

(** C3 as the specification states it does not hold: a key that is in the
    failure set and also in the success set starts as [SUCCESS], not
    [FAILURE]. *)
Lemma failure_key_in_both_sets_counterexample :
  ~ (forall fs p,
       p ∈ get_initial_packages fs ->
       (line p ∈ load_set (SUCCESS_LOG fs) -> status p = SUCCESS) /\
       (line p ∈ load_set (FAILURE_LOG fs) -> status p = FAILURE) /\
       (line p ∉ load_set (SUCCESS_LOG fs) -> line p ∉ load_set (FAILURE_LOG fs) ->
        status p = QUEUED)).
Proof.
  intros H.
  destruct (H fs_both {| line := py "alpha"; name := py "alpha"; status := SUCCESS |})
    as (_ & Hf & _).
  - apply (list_elem_of_lookup_2 _ 0%nat). vm_compute. reflexivity.
  - discriminate Hf. apply (bool_decide_unpack _). vm_compute. exact I.
Qed.

(** C3, amended. At load time the key of a job is the trimmed source line; a
    job whose key is in the success set starts [SUCCESS], one whose key is in
    the failure set and not in the success set starts [FAILURE], and all
    others start [QUEUED]. In every execution of the loop no external call
    ([dpkg-query] or the installer) is made for a job that started [SUCCESS]
    or [FAILURE], and an iteration that finds such a job under the cursor
    moves the cursor past it with the queue unchanged. *)
Theorem resume_skips_resolved_jobs fs :
  (forall p, p ∈ get_initial_packages fs ->
     (exists lines l, MASTER_LIST fs = Some lines /\ l ∈ lines /\ line p = strip l) /\
     (line p ∈ load_set (SUCCESS_LOG fs) -> status p = SUCCESS) /\
     (line p ∈ load_set (FAILURE_LOG fs) -> line p ∉ load_set (SUCCESS_LOG fs) ->
      status p = FAILURE) /\
     (line p ∉ load_set (SUCCESS_LOG fs) -> line p ∉ load_set (FAILURE_LOG fs) ->
      status p = QUEUED)) /\
  (forall h w now envs j p c,
     get_initial_packages fs !! j = Some p ->
     status p = SUCCESS \/ status p = FAILURE ->
     c ∈ calls (exit_state (main_loop envs (init fs h w now))) ->
     call_job c <> j) /\
  (forall h w now envs s e p,
     run (init fs h w now) envs s ->
     packages s !! current_index s = Some p ->
     status p = SUCCESS \/ status p = FAILURE ->
     getch e <> ord_q ->
     exists s', tick e s = Continue s' /\
       current_index s' = S (current_index s) /\
       packages s' = packages s /\ calls s' = calls s).
Proof.
  split; [|split].
  - intros p Hp.
    destruct (get_initial_packages_elem _ _ Hp) as (lines & l & Hm & Hl & Hline & Hst).
    split; [eauto|]. rewrite Hst. unfold initial_status.
    repeat case_bool_decide; repeat split; intros; try contradiction; reflexivity.
  - intros h w now envs j p c Hj Hst Hc Hcj.
    assert (Hq : calls_for_queued (init fs h w now)
                   (exit_state (main_loop envs (init fs h w now)))).
    { destruct (main_loop_run envs (init fs h w now))
        as (envs1 & s1 & Hrun & [->|(e & Hlt & ->)]).
      - apply (run_calls_for_queued _ envs1); auto using init_proc_inv.
      - apply (tick_calls_for_queued _ envs1); auto using init_proc_inv.
        apply (run_calls_for_queued _ envs1); auto using init_proc_inv. }
    destruct (Hq c Hc) as (p0 & Hp0 & Hq0). rewrite Hcj in Hp0. simpl in Hp0.
    rewrite Hj in Hp0. injection Hp0 as <-. destruct Hst; congruence.
  - intros h w now envs s e p Hrun Hp Hst Hkey.
    pose proof (run_proc_inv _ _ _ (init_proc_inv fs h w now) Hrun) as Hinv.
    assert (Hlt : loop_cond s) by (by eapply lookup_lt_Some).
    destruct (tick_cases e s Hinv Hlt) as [[Hq _]|(s1 & r & _ & Hsame & Hc & ->)];
      [contradiction|].
    destruct Hsame as (Epk & Eci & _ & _ & _ & Ecl & _).
    destruct Hc as [p' Hproc Hp' _|p' x Hproc Hp' Hst' Hchk|p' Hproc Hp' Hst' Hchk
                   |p' x Hproc Hp' Hst' Hchk Hpo|p' Hproc Hp' Hst' Hchk Hpo
                   |cmd p' Hproc Hp' Hst' Hpoll|cmd p' Hproc Hp' Hst' Hpoll
                   |cmd p' rc Hproc Hp' Hst' Hpoll Hrc];
      rewrite Epk, Eci, Hp in Hp'; injection Hp' as <-;
      try (destruct Hst; congruence).
    eexists. split; [reflexivity|].
    destruct (finish_tick_frame e
                (set_needs_redraw true (set_current_index (S (current_index s1)) s1)))
      as (-> & -> & _ & _ & -> & _).
    simpl. auto.
Qed.

Lemma resume_skips_resolved_jobs_witness :
  let p := {| line := py "gamma"; name := py "gamma"; status := SUCCESS |} in
  (get_initial_packages fs_demo !! 2%nat = Some p /\
   (status p = SUCCESS \/ status p = FAILURE)) /\
  forall c,
    c ∈ calls (exit_state (main_loop envs_demo (init fs_demo 24 80 (Float.of_int 999)))) ->
    call_job c <> 2%nat.
Proof.
  intros p.
  assert (H1 : get_initial_packages fs_demo !! 2%nat = Some p)
    by (vm_compute; reflexivity).
  assert (H2 : status p = SUCCESS \/ status p = FAILURE) by (left; reflexivity).
  split; [exact (conj H1 H2)|].
  intros c.
  exact (proj1 (proj2 (resume_skips_resolved_jobs fs_demo))
           24 80 (Float.of_int 999) envs_demo 2%nat p c H1 H2).
Defined.

(** C4. At the top of every iteration the jobs that are done, the jobs that are
    queued and the job in progress, if any, add up to the whole queue, and at
    most one job is [PROCESSING]; once an iteration has run, [processed] in
    [stats_data] is the number of jobs done. *)
Theorem progress_accounting fs h w now envs s :
  run (init fs h w now) envs s ->
  let pkgs := packages s in
  (count_status [SUCCESS; FAILURE; SKIPPED] pkgs + count_status [QUEUED] pkgs
   + processing_flag pkgs = length pkgs)%nat /\
  (count_status [PROCESSING] pkgs <= 1)%nat /\
  total (stats_data s) = length pkgs /\
  (envs <> [] ->
   (processed (stats_data s) + count_status [QUEUED] pkgs + processing_flag pkgs
    = total (stats_data s))%nat).
Proof.
  intros Hrun pkgs.
  pose proof (init_proc_inv fs h w now) as H0.
  pose proof (run_proc_inv _ _ _ H0 Hrun) as [Hone _].
  assert (Hle : (count_status [PROCESSING] pkgs <= 1)%nat).
  { apply (count_processing_le_1 _ (current_index s)).
    intros j p Hj Hp. by destruct (Hone j p Hj Hp). }
  pose proof (count_status_partition pkgs) as Hpart.
  rewrite <- (processing_flag_count pkgs Hle) in Hpart.
  destruct (init_view fs h w now) as (V1 & V2 & V3).
  destruct (run_view_inv _ _ _ H0 V1 V2 V3 Hrun) as (_ & _ & Hlen & Htot & _).
  assert (Ht : total (stats_data s) = length pkgs).
  { rewrite Htot. simpl. symmetry. exact Hlen. }
  repeat split; auto.
  intros Hne. rewrite (run_processed _ _ _ H0 Hrun Hne), Ht. exact Hpart.
Qed.

Lemma progress_accounting_witness :
  run (init fs_demo 24 80 (Float.of_int 999)) envs_demo s_demo /\
  (count_status [SUCCESS; FAILURE; SKIPPED] (packages s_demo)
   + count_status [QUEUED] (packages s_demo)
   + processing_flag (packages s_demo) = length (packages s_demo))%nat.
Proof.
  split; [exact demo_run|].
  exact (proj1 (progress_accounting fs_demo 24 80 (Float.of_int 999) envs_demo s_demo
                  demo_run)).
Defined.

(** C5. In every iteration, whatever its outcome, the status of every job stays
    as it is or moves from [QUEUED] to [SKIPPED] or [PROCESSING], or from
    [PROCESSING] to [SUCCESS] or [FAILURE]; and a job that is not [QUEUED] at
    some point of a run is not [QUEUED] at any later point. *)
Theorem status_history_monotonic fs h w now envs s j q :
  run (init fs h w now) envs s ->
  packages s !! j = Some q ->
  (forall e, loop_cond s ->
     exists q', packages (outcome_state (tick e s)) !! j = Some q' /\
       (status q' = status q \/
        (status q = QUEUED /\ (status q' = SKIPPED \/ status q' = PROCESSING)) \/
        (status q = PROCESSING /\ (status q' = SUCCESS \/ status q' = FAILURE)))) /\
  (forall envs' s', run s envs' s' ->
     exists q', packages s' !! j = Some q' /\
       (status q <> QUEUED -> status q' <> QUEUED)).
Proof.
  intros Hrun Hj.
  pose proof (run_proc_inv _ _ _ (init_proc_inv fs h w now) Hrun) as Hinv.
  split.
  - intros e Hlt.
    destruct (tick_evolves e s Hinv Hlt) as [_ Hev].
    destruct (Hev j q Hj) as (q' & Hq' & _ & _ & Htr).
    exists q'. split; [exact Hq'|]. unfold trans in Htr.
    destruct Htr as [E|[?|?]]; auto.
  - intros envs' s' Hrun'.
    destruct (run_settled _ _ _ Hinv Hrun') as [_ Hs].
    destruct (Hs j q Hj) as (q' & Hq' & _ & _ & Hnq & _).
    exists q'. auto.
Qed.

Lemma status_history_monotonic_witness :
  let q := {| line := py "alpha"; name := py "alpha"; status := SUCCESS |} in
  (run (init fs_demo 24 80 (Float.of_int 999)) envs_demo s_demo /\
   packages s_demo !! 0%nat = Some q) /\
  forall envs' s', run s_demo envs' s' ->
    exists q', packages s' !! 0%nat = Some q' /\
      (status q <> QUEUED -> status q' <> QUEUED).
Proof.
  intros q.
  assert (Hq : packages s_demo !! 0%nat = Some q) by (vm_compute; reflexivity).
  split; [exact (conj demo_run Hq)|].
  exact (proj2 (status_history_monotonic fs_demo 24 80 (Float.of_int 999) envs_demo
                  s_demo 0%nat q demo_run Hq)).
Defined.

(** C6. At the top of every iteration [etr] is [None] as long as no duration
    has been recorded, and otherwise it is the mean of the recorded durations
    times the number of [QUEUED] jobs, a function of these two alone; once a
    duration has been recorded the list of durations stays non-empty. *)
Theorem etr_contract fs h w now envs s :
  run (init fs h w now) envs s ->
  let ts := times (stats_data s) in
  (ts = [] -> etr (stats_data s) = None) /\
  (ts <> [] ->
   etr (stats_data s)
   = Some (Float.mul
             (Float.div (Float.fsum ts) (Float.of_int (Z.of_nat (length ts))))
             (Float.of_int (Z.of_nat (count_status [QUEUED] (packages s)))))) /\
  (forall envs' s', run s envs' s' -> ts <> [] -> times (stats_data s') <> []).
Proof.
  intros Hrun ts.
  pose proof (init_proc_inv fs h w now) as H0.
  destruct (init_view fs h w now) as (V1 & V2 & V3).
  destruct (run_view_inv _ _ _ H0 V1 V2 V3 Hrun) as (_ & _ & _ & _ & _ & Hetr & _).
  unfold etr_ok in Hetr. fold ts in Hetr.
  split; [|split].
  - intros E. by rewrite Hetr, E.
  - intros Hne. rewrite Hetr. destruct ts; [contradiction|reflexivity].
  - intros envs' s' Hrun' Hne.
    destruct (run_times _ _ _ (run_proc_inv _ _ _ H0 Hrun) Hrun') as [new ->].
    fold ts. destruct ts; [contradiction|discriminate].
Qed.

Lemma etr_contract_witness :
  (run (init fs_demo 24 80 (Float.of_int 999)) envs_demo s_demo /\
   times (stats_data s_demo) <> []) /\
  etr (stats_data s_demo)
  = Some (Float.mul
            (Float.div (Float.fsum (times (stats_data s_demo)))
               (Float.of_int (Z.of_nat (length (times (stats_data s_demo))))))
            (Float.of_int (Z.of_nat (count_status [QUEUED] (packages s_demo))))).
Proof.
  assert (Hne : times (stats_data s_demo) <> []) by (vm_compute; discriminate).
  split; [exact (conj demo_run Hne)|].
  exact (proj1 (proj2 (etr_contract fs_demo 24 80 (Float.of_int 999) envs_demo s_demo
                         demo_run)) Hne).
Defined.

(** C7. At the top of every iteration, and after the input handling of any
    key, the scroll offset lies between [0] and
    [max(0, total - visibleRows)]; when the queue fits in the pane the offset
    is [0] and a pane that has been drawn has no scrollbar thumb. *)
Theorem scroll_offset_bounded fs h w now envs s :
  run (init fs h w now) envs s ->
  let total := Z.of_nat (length (packages s)) in
  let visibleRows := height s - 2 in
  0 <= scroll_offset s <= Z.max 0 (total - visibleRows) /\
  (forall key s1, handle_input key (set_needs_redraw false s) = Some s1 ->
     0 <= scroll_offset s1 <= Z.max 0 (total - visibleRows)) /\
  (total <= visibleRows ->
   scroll_offset s = 0 /\
   (forall key s1, handle_input key (set_needs_redraw false s) = Some s1 ->
      scroll_offset s1 = 0) /\
   (forall pane, screen s = Some pane -> thumb pane = None)).
Proof.
  intros Hrun total visibleRows.
  pose proof (init_proc_inv fs h w now) as H0.
  destruct (init_view fs h w now) as (V1 & V2 & V3).
  destruct (run_view_inv _ _ _ H0 V1 V2 V3 Hrun) as (_ & _ & _ & _ & Hso & _ & Hsc).
  unfold scroll_ok, max_scroll_of in Hso. fold total visibleRows in Hso.
  assert (Hin : forall key s1,
             handle_input key (set_needs_redraw false s) = Some s1 ->
             0 <= scroll_offset s1 <= Z.max 0 (total - visibleRows)).
  { intros key s1 Hs1.
    destruct (handle_input_Some _ _ _ Hs1) as (_ & Hsame & [E|Hok]).
    - rewrite E. exact Hso.
    - destruct Hsame as (Epk & _ & _ & _ & _ & _ & Eh & _).
      unfold scroll_ok, max_scroll_of in Hok. rewrite Epk, Eh in Hok. exact Hok. }
  split; [exact Hso|]. split; [exact Hin|].
  intros Hfit. split; [lia|]. split.
  - intros key s1 Hs1. specialize (Hin key s1 Hs1). lia.
  - intros pane Hpane. by apply (Hsc pane).
Qed.

Lemma scroll_offset_bounded_witness :
  run (init fs_eight 6 80 (Float.of_int 999))
    [env_installed; env_installed; env_installed] s_scrolled /\
  0 <= scroll_offset s_scrolled
    <= Z.max 0 (Z.of_nat (length (packages s_scrolled)) - (height s_scrolled - 2)).
Proof.
  split; [exact scrolled_run|].
  exact (proj1 (scroll_offset_bounded fs_eight 6 80 (Float.of_int 999) _ s_scrolled
                  scrolled_run)).
Defined.

Lemma to_int_truncates m e :
  e < 0 ->
  let a := Float.to_int (S754_finite false m e) in
  a * 2 ^ (- e) <= Z.pos m < (a + 1) * 2 ^ (- e).
Proof.
  intros He. destruct e as [|p|p]; try lia.
  cbv zeta. unfold Float.to_int. change (- Z.neg p) with (Z.pos p).
  set (d := 2 ^ Z.pos p).
  assert (Hpos : 0 < d) by (apply Z.pow_pos_nonneg; lia).
  split.
  - rewrite Z.mul_comm. apply Z.mul_div_le. exact Hpos.
  - rewrite Z.mul_comm. apply Z.mul_succ_div_gt. exact Hpos.
Qed.

(** C2. In a run whose clock readings are after the epoch, an iteration (other
    than one that quits) in which [poll()] reports that the child has exited
    continues the loop; the job under the cursor becomes [SUCCESS] on exit code
    [0], and [now - pkg_start_time] is appended to the durations, or [FAILURE]
    on any other exit code, and nothing is appended; either way no child is
    running afterwards and the cursor has moved to the next job. *)
Theorem completion_poll fs h w now envs s e cmd rc :
  run (init fs h w now) envs s ->
  Forall (fun e => after_epoch (time_job e)) envs ->
  process s = Some cmd ->
  getch e <> ord_q ->
  poll e = Some rc ->
  exists s',
    tick e s = Continue s' /\
    packages s'
    = alter (set_status (if rc =? 0 then SUCCESS else FAILURE))
        (current_index s) (packages s) /\
    (current_index s < length (packages s))%nat /\
    times (stats_data s')
    = (if rc =? 0
       then times (stats_data s) ++ [Float.sub (time_job e) (pkg_start_time s)]
       else times (stats_data s)) /\
    process s' = None /\
    current_index s' = S (current_index s).
Proof.
  intros Hrun Hclock Hproc Hkey Hpoll.
  pose proof (init_proc_inv fs h w now) as H0.
  pose proof (run_proc_inv _ _ _ H0 Hrun) as Hinv.
  assert (Hc0 : clock_ok (init fs h w now)) by (intros [? [=]]).
  pose proof (run_clock _ _ _ H0 Hc0 Hclock Hrun) as Hck.
  assert (Hstart : after_epoch (pkg_start_time s)) by (apply Hck; rewrite Hproc; eauto).
  assert (Hlt : loop_cond s).
  { destruct Hinv as [_ Hr]. destruct Hr as (p & Hp & _); [rewrite Hproc; eauto|].
    by eapply lookup_lt_Some. }
  destruct (tick_cases e s Hinv Hlt) as [[Hq _]|(s1 & r & _ & Hsame & Hc & ->)];
    [contradiction|].
  destruct Hsame as (Epk & Eci & Epr & Est & Esd & _).
  destruct Hc as [p' Hproc' Hp' _|p' x Hproc' Hp' Hst' Hchk|p' Hproc' Hp' Hst' Hchk
                 |p' x Hproc' Hp' Hst' Hchk Hpo|p' Hproc' Hp' Hst' Hchk Hpo
                 |cmd' p' Hproc' Hp' Hst' Hpoll'|cmd' p' Hproc' Hp' Hst' Hpoll'
                 |cmd' p' rc' Hproc' Hp' Hst' Hpoll' Hrc];
    try congruence.
  - assert (rc = 0) as -> by congruence. simpl (0 =? 0).
    eexists. split; [reflexivity|].
    match goal with |- context [finish_tick e ?x] =>
      destruct (finish_tick_frame e x) as (-> & -> & -> & _ & _ & _ & _ & _ & -> & _)
    end.
    unfold finished, record_time. cbn. drain_frame.
    rewrite Est. unfold after_epoch in Hstart. cbn in Hstart. rewrite Hstart.
    cbn. drain_frame. rewrite Epk, Eci, Esd. auto.
  - assert (rc' = rc) as -> by congruence.
    apply Z.eqb_neq in Hrc. rewrite Hrc.
    eexists. split; [reflexivity|].
    match goal with |- context [finish_tick e ?x] =>
      destruct (finish_tick_frame e x) as (-> & -> & -> & _ & _ & _ & _ & _ & -> & _)
    end.
    unfold finished. cbn. drain_frame. rewrite Epk, Eci, Esd. auto.
Qed.

Lemma completion_poll_witness :
  (run (init fs_demo 24 80 (Float.of_int 999)) envs_demo s_demo /\
   Forall (fun e => after_epoch (time_job e)) envs_demo /\
   process s_demo = Some (install_cmd (py "beta")) /\
   getch (env_exit 137 1009) <> ord_q /\
   poll (env_exit 137 1009) = Some 137) /\
  exists s',
    tick (env_exit 137 1009) s_demo = Continue s' /\
    packages s'
    = alter (set_status (if 137 =? 0 then SUCCESS else FAILURE))
        (current_index s_demo) (packages s_demo) /\
    (current_index s_demo < length (packages s_demo))%nat /\
    times (stats_data s')
    = (if 137 =? 0
       then times (stats_data s_demo)
            ++ [Float.sub (time_job (env_exit 137 1009)) (pkg_start_time s_demo)]
       else times (stats_data s_demo)) /\
    process s' = None /\
    current_index s' = S (current_index s_demo).
Proof.
  assert (H1 : Forall (fun e => after_epoch (time_job e)) envs_demo)
    by (repeat constructor).
  assert (H2 : process s_demo = Some (install_cmd (py "beta")))
    by (vm_compute; reflexivity).
  assert (H3 : getch (env_exit 137 1009) <> ord_q) by (vm_compute; discriminate).
  assert (H4 : poll (env_exit 137 1009) = Some 137) by reflexivity.
  split; [exact (conj demo_run (conj H1 (conj H2 (conj H3 H4))))|].
  exact (completion_poll fs_demo 24 80 (Float.of_int 999) envs_demo s_demo
           (env_exit 137 1009) (install_cmd (py "beta")) 137 demo_run H1 H2 H3 H4).
Defined.

(** C9. Every iteration that continues the loop ends with the scroll offset
    set to [current_index - visibleRows // 2], clamped to
    [[0, max(0, total - visibleRows)]], whatever key was read in it; the state
    it ends in, the drawn pane included, is the same for every scroll offset
    it could have started with; and while a child is running the pane is drawn
    with that offset. *)
Theorem auto_scroll_overrides e s s' :
  tick e s = Continue s' ->
  let total := Z.of_nat (length (packages s')) in
  let visibleRows := height s' - 2 in
  scroll_offset s'
  = Z.max 0 (Z.min (Z.of_nat (current_index s') - visibleRows / 2)
               (Z.max 0 (total - visibleRows))) /\
  (forall o, tick e (set_scroll_offset o s) = Continue s') /\
  (is_Some (process s') ->
   screen s'
   = Some (draw_package_list (height s') (width s' / 2) (packages s') (scroll_offset s'))).
Proof.
  intros Ht total visibleRows.
  destruct (tick_Continue_finish _ _ _ Ht) as (s2 & Hs' & _).
  destruct (finish_tick_frame e s2) as (Gpk & Gci & Gpr & _ & _ & Gh & Gw & _).
  split; [|split].
  - unfold total, visibleRows. rewrite Hs', finish_tick_scroll, Gpk, Gci, Gh.
    reflexivity.
  - intros o. by apply tick_set_scroll.
  - rewrite Hs', Gpr, Gpk, Gh, Gw. intros Hp.
    destruct (finish_tick_screen e s2) as [(_ & Hn & _)|(_ & Hs)]; [|exact Hs].
    rewrite Hn in Hp. by destruct Hp.
Qed.

Lemma auto_scroll_overrides_witness :
  tick (env_exit 0 1009) s_demo
  = Continue (outcome_state (tick (env_exit 0 1009) s_demo)) /\
  forall o,
    tick (env_exit 0 1009) (set_scroll_offset o s_demo)
    = Continue (outcome_state (tick (env_exit 0 1009) s_demo)).
Proof.
  assert (H : tick (env_exit 0 1009) s_demo
              = Continue (outcome_state (tick (env_exit 0 1009) s_demo)))
    by (vm_compute; reflexivity).
  split; [exact H|].
  exact (proj1 (proj2 (auto_scroll_overrides _ _ _ H))).
Defined.

Lemma popen_failure_raises e s p x rest :
  process s = None ->
  packages s !! current_index s = Some p ->
  status p = QUEUED ->
  getch e <> ord_q ->
  check_if_installed e (name p) = inr false ->
  subprocess_Popen e (install_cmd (name p)) = PopenRaised x ->
  exists s',
    main_loop (e :: rest) s = Crashed x s' /\
    packages s' = alter (set_status PROCESSING) (current_index s) (packages s) /\
    process s' = None.
Proof.
  intros Hproc Hp Hst Hkey Hchk Hpo. simpl.
  rewrite bool_decide_eq_true_2 by (by eapply lookup_lt_Some).
  unfold tick.
  destruct (handle_input (getch e) (set_needs_redraw false s)) as [s1|] eqn:Hin.
  - destruct (handle_input_Some _ _ _ Hin) as (_ & Hsame & _).
    destruct Hsame as (Epk & Eci & Epr & _). simpl in Epk, Eci, Epr.
    unfold job_step. rewrite Epr, Hproc. unfold start_job. rewrite Epk, Eci, Hp.
    destruct (decide (status p = QUEUED)); [|contradiction].
    rewrite Hchk, Hpo. eexists. split; [reflexivity|].
    simpl. rewrite Epk, Eci, Epr. auto.
  - by apply handle_input_None in Hin.
Qed.

(** C1. What the code does when the installer cannot be spawned: the exception
    leaves [main_ui], the loop is over, the job is left [PROCESSING] with no
    child running and the rest of the queue is never reached. *)
Theorem missing_installer_crashes :
  exists s',
    main_ui fs_two 24 80 (Float.of_int 999) [env_no_installer; env_idle 1001; env_idle 1002]
    = Some (Crashed FileNotFoundError s') /\
    status <$> packages s' = [PROCESSING; QUEUED] /\
    process s' = None.
Proof. eexists. split; [vm_compute; reflexivity|]. split; reflexivity. Qed.

(** C8 as the specification states it does not hold: with eight jobs, four
    visible rows and the offset [1] the product is [0.75]; the code draws the
    thumb on row [0], rounding gives row [1]. *)
Lemma thumb_row_rounded_counterexample :
  ~ (forall h w pkgs off,
       let total := Z.of_nat (length pkgs) in
       let visibleRows := h - 2 in
       visibleRows < total -> 0 <= off <= total - visibleRows ->
       thumb (draw_package_list h w pkgs off)
       = Some (spec_thumb_row off (total - visibleRows) visibleRows)).
Proof.
  intros H. specialize (H 6 80 eight_jobs 1).
  cbv zeta in H. vm_compute in H.
  assert (Hcontra : Some 0 = Some 1) by (apply H; [reflexivity|split; discriminate]).
  discriminate Hcontra.
Qed.

(** C8, amended. When [total > visibleRows] the thumb is drawn on row
    [int(scrollOffset / maxScroll * (visibleRows - 1))] with
    [maxScroll = total - visibleRows]: the product, computed in floats, is
    truncated toward zero, not rounded. When [total <= visibleRows] no thumb
    is drawn. *)
Theorem scrollbar_thumb_truncates h w pkgs off :
  let total := Z.of_nat (length pkgs) in
  let visibleRows := h - 2 in
  (visibleRows < total ->
   thumb (draw_package_list h w pkgs off)
   = Some (Float.to_int
             (Float.mul
                (Float.div (Float.of_int off) (Float.of_int (total - visibleRows)))
                (Float.of_int (visibleRows - 1))))) /\
  (total <= visibleRows -> thumb (draw_package_list h w pkgs off) = None).
Proof.
  intros total visibleRows. split.
  - intros Hlt. unfold draw_package_list. cbn [thumb].
    fold visibleRows. fold total.
    rewrite (proj2 (Z.ltb_lt visibleRows total) Hlt).
    rewrite (proj2 (Z.ltb_lt 0 (total - visibleRows))) by lia.
    reflexivity.
  - apply draw_no_thumb.
Qed.

Lemma scrollbar_thumb_truncates_witness :
  6 - 2 < Z.of_nat (length eight_jobs) /\
  thumb (draw_package_list 6 80 eight_jobs 1) = Some 0.
Proof.
  assert (H : 6 - 2 < Z.of_nat (length eight_jobs)) by reflexivity.
  split; [exact H|].
  exact (proj1 (scrollbar_thumb_truncates 6 80 eight_jobs 1) H).
Defined.

Example thumb_rows :
  (fun off => thumb (draw_package_list 6 80 eight_jobs off)) <$> [0; 1; 2; 3; 4]
  = [Some 0; Some 0; Some 1; Some 2; Some 3].
Proof. vm_compute. reflexivity. Qed.

(** * Further properties *)

(** ** The loader *)

Lemma load_packages_lines success_lines failure_lines lines :
  line <$> load_packages success_lines failure_lines lines
  = filter job_line (strip <$> lines).
Proof.
  induction lines as [|l lines IH]; [reflexivity|].
  rewrite fmap_cons, filter_cons. cbn [load_packages]. cbv zeta.
  destruct (bool_decide (strip l = []) || startswith hash (strip l)) eqn:Hskip.
  - rewrite IH. destruct (decide (job_line (strip l))) as [[Hne Hh]|_]; [|reflexivity].
    apply orb_true_iff in Hskip as [Hs|Hs]; [|congruence].
    apply bool_decide_eq_true in Hs. contradiction.
  - apply orb_false_iff in Hskip as [Hne Hh]. apply bool_decide_eq_false in Hne.
    destruct (decide (job_line (strip l))) as [_|Hn]; [|by destruct Hn].
    rewrite fmap_cons, IH. f_equal.
    repeat case_bool_decide; simpl; apply strip_idempotent.
Qed.

(** X1. The keys of the loaded queue are the stripped lines of the master list
    that are neither blank nor comments, in the order of the file and with
    repetitions kept; a master list that is missing gives the empty queue. *)
Theorem loaded_keys_in_file_order fs :
  line <$> get_initial_packages fs
  = filter job_line (strip <$> default [] (MASTER_LIST fs)).
Proof.
  unfold get_initial_packages. destruct (MASTER_LIST fs) as [lines|]; [|reflexivity].
  apply load_packages_lines.
Qed.

Lemma rstrip_ends_clean s : ends_clean (rstrip s).
Proof. unfold ends_clean, rstrip. rewrite rev_involutive. apply lstrip_starts_clean. Qed.

Lemma split_from_first cur s :
  cur <> [] ->
  exists t rest more,
    split_from cur s = (rev cur ++ t) :: more /\ s = t ++ rest /\
    Forall (fun c => isspace c = false) t /\
    match rest with [] => True | c :: _ => isspace c = true end.
Proof.
  revert cur. induction s as [|c s IH]; intros cur Hcur.
  - exists [], [], []. simpl. rewrite app_nil_r.
    destruct cur; [contradiction|]. auto.
  - simpl. destruct (isspace c) eqn:Hc.
    + exists [], (c :: s), (split_from [] s). rewrite app_nil_r.
      destruct cur; [contradiction|]. auto.
    + destruct (IH (c :: cur)) as (t & rest & more & Hsp & Hs & Ht & Hr); [discriminate|].
      exists (c :: t), rest, more. rewrite Hsp. simpl. rewrite <- app_assoc.
      repeat split; auto. by rewrite Hs.
Qed.

(** X2. Every job of the loaded queue has a key that is stripped, not empty
    and not a comment, and a name that is the first word of the key: not
    empty, free of white space, and followed in the key by nothing or by a
    white space character. *)
Theorem loaded_job_key_and_name fs p :
  p ∈ get_initial_packages fs ->
  strip (line p) = line p /\ line p <> [] /\ startswith hash (line p) = false /\
  name p <> [] /\ Forall (fun c => isspace c = false) (name p) /\
  exists rest, line p = name p ++ rest /\
    match rest with [] => True | c :: _ => isspace c = true end.
Proof.
  unfold get_initial_packages. destruct (MASTER_LIST fs) as [lines|]; [|inversion 1].
  induction lines as [|l lines IH]; simpl; [inversion 1|].
  destruct (bool_decide (strip l = []) || startswith hash (strip l)) eqn:Hskip;
    [exact IH|].
  intros Hp. apply elem_of_cons in Hp as [->|Hp]; [|by apply IH].
  apply orb_false_iff in Hskip as [Hne Hh]. apply bool_decide_eq_false in Hne.
  assert (Hl : forall q, line q = strip (strip l) -> line q = strip l)
    by (intros q ->; apply strip_idempotent).
  match goal with |- context [line ?q] =>
    assert (Hline : line q = strip l) by (repeat case_bool_decide; apply strip_idempotent);
    assert (Hname : name q = name (Package_init (strip l)))
      by (repeat case_bool_decide; reflexivity)
  end.
  rewrite Hline, Hname, strip_idempotent.
  split; [reflexivity|]. split; [exact Hne|]. split; [exact Hh|].
  unfold Package_init. cbn [name]. rewrite strip_idempotent.
  assert (Hc : starts_clean (strip l))
    by apply rstrip_starts_clean, lstrip_starts_clean.
  destruct (strip l) as [|c r] eqn:Hs; [contradiction|].
  unfold split. simpl in Hc |- *. rewrite Hc.
  destruct (split_from_first [c] r) as (t & rest & more & -> & -> & Ht & Hr);
    [discriminate|].
  simpl. split; [discriminate|]. split; [by constructor|].
  exists rest. auto.
Qed.

Lemma loaded_job_key_and_name_witness :
  let p := {| line := py "beta 2.0"; name := py "beta"; status := QUEUED |} in
  p ∈ get_initial_packages fs_demo /\
  exists rest, line p = name p ++ rest /\
    match rest with [] => True | c :: _ => isspace c = true end.
Proof.
  intros p.
  assert (H : p ∈ get_initial_packages fs_demo)
    by (apply (list_elem_of_lookup_2 _ 1%nat); vm_compute; reflexivity).
  split; [exact H|].
  exact (proj2 (proj2 (proj2 (proj2 (proj2 (loaded_job_key_and_name fs_demo p H)))))).
Defined.

(** X3. The initial statuses depend on the two logs only through the sets of
    their stripped lines: the order of the lines of a log, repeated lines and
    white space around a key make no difference, and a log that is missing
    counts as an empty one. *)
Theorem resume_ignores_log_layout fs1 fs2 :
  MASTER_LIST fs1 = MASTER_LIST fs2 ->
  (forall k, k ∈ strip <$> default [] (SUCCESS_LOG fs1)
             <-> k ∈ strip <$> default [] (SUCCESS_LOG fs2)) ->
  (forall k, k ∈ strip <$> default [] (FAILURE_LOG fs1)
             <-> k ∈ strip <$> default [] (FAILURE_LOG fs2)) ->
  get_initial_packages fs1 = get_initial_packages fs2.
Proof.
  intros Hm Hs Hf. unfold get_initial_packages. rewrite Hm.
  assert (Es : load_set (SUCCESS_LOG fs1) = load_set (SUCCESS_LOG fs2)).
  { apply set_eq. intros k. unfold load_set. rewrite !elem_of_list_to_set. apply Hs. }
  assert (Ef : load_set (FAILURE_LOG fs1) = load_set (FAILURE_LOG fs2)).
  { apply set_eq. intros k. unfold load_set. rewrite !elem_of_list_to_set. apply Hf. }
  by rewrite Es, Ef.
Qed.

Lemma resume_ignores_log_layout_witness :
  (MASTER_LIST fs_log_a = MASTER_LIST fs_log_b /\
   (forall k, k ∈ strip <$> default [] (SUCCESS_LOG fs_log_a)
              <-> k ∈ strip <$> default [] (SUCCESS_LOG fs_log_b)) /\
   (forall k, k ∈ strip <$> default [] (FAILURE_LOG fs_log_a)
              <-> k ∈ strip <$> default [] (FAILURE_LOG fs_log_b))) /\
  get_initial_packages fs_log_a = get_initial_packages fs_log_b.
Proof.
  assert (H1 : MASTER_LIST fs_log_a = MASTER_LIST fs_log_b) by reflexivity.
  assert (H2 : forall k, k ∈ strip <$> default [] (SUCCESS_LOG fs_log_a)
                         <-> k ∈ strip <$> default [] (SUCCESS_LOG fs_log_b)).
  { intros k. vm_compute fmap. rewrite !elem_of_cons, !elem_of_nil. tauto. }
  assert (H3 : forall k, k ∈ strip <$> default [] (FAILURE_LOG fs_log_a)
                         <-> k ∈ strip <$> default [] (FAILURE_LOG fs_log_b)).
  { intros k. vm_compute fmap. rewrite !elem_of_cons, !elem_of_nil. tauto. }
  split; [exact (conj H1 (conj H2 H3))|].
  exact (resume_ignores_log_layout fs_log_a fs_log_b H1 H2 H3).
Defined.

(** ** The cursor and the queue *)

Lemma finish_tick_packages e s : packages (finish_tick e s) = packages s.
Proof. apply finish_tick_frame. Qed.

Lemma finish_tick_current_index e s : current_index (finish_tick e s) = current_index s.
Proof. apply finish_tick_frame. Qed.

Lemma finish_tick_process e s : process (finish_tick e s) = process s.
Proof. apply finish_tick_frame. Qed.

Lemma finish_tick_calls e s : calls (finish_tick e s) = calls s.
Proof. apply finish_tick_frame. Qed.

Lemma finish_tick_times e s :
  times (stats_data (finish_tick e s)) = times (stats_data s).
Proof. apply finish_tick_frame. Qed.

Lemma finish_tick_output_lines e s : output_lines (finish_tick e s) = output_lines s.
Proof. unfold finish_tick, redraw. by destruct (_ || _). Qed.

Ltac finish_frame :=
  rewrite ?finish_tick_packages, ?finish_tick_current_index, ?finish_tick_process,
    ?finish_tick_calls, ?finish_tick_times, ?finish_tick_output_lines.

Lemma job_case_inr_not_queued e s s' p' :
  job_case e s (inr s') ->
  packages s' !! current_index s = Some p' -> status p' <> QUEUED.
Proof.
  intros Hc. remember (inr s') as r eqn:Hr.
  destruct Hc as [p Hproc Hp Hst|p x Hproc Hp Hst Hchk|p Hproc Hp Hst Hchk
                 |p x Hproc Hp Hst Hchk Hpo|p Hproc Hp Hst Hchk Hpo
                 |cmd p Hproc Hp Hst Hpoll|cmd p Hproc Hp Hst Hpoll
                 |cmd p rc Hproc Hp Hst Hpoll Hrc];
    simplify_eq; unfold finished, record_time; try destruct (Float.ltb _ _);
    cbn; drain_frame; rewrite ?list_lookup_alter_eq, ?Hp; cbn;
    intros [= <-]; cbn; try discriminate; try congruence.
  destruct Hst as [-> | [-> | ->]]; discriminate.
Qed.

(** The cursor and the queue after a step that continues the loop. *)
Lemma job_case_advance e s s' :
  proc_inv s -> job_case e s (inr s') ->
  exists p st',
    packages s !! current_index s = Some p /\
    packages s' = alter (set_status st') (current_index s) (packages s) /\
    trans (status p) st' /\
    ((st' = PROCESSING /\ is_Some (process s') /\ current_index s' = current_index s) \/
     (resolved st' /\ process s' = None /\ current_index s' = S (current_index s))).
Proof.
  intros Hinv Hc.
  destruct (job_case_effect _ _ _ Hc) as (p & st' & Hp & Hpk & Htr & Hctl).
  destruct (Hctl s' eq_refl) as [Hproc Hci]. simpl in Hpk.
  exists p, st'. repeat split; auto.
  destruct (decide (st' = PROCESSING)) as [E|E].
  - left. repeat split; auto. by apply Hproc.
  - right. assert (Hq : st' <> QUEUED).
    { apply (job_case_inr_not_queued e s s' (set_status st' p) Hc).
      by rewrite Hpk, list_lookup_alter_eq, Hp. }
    split; [destruct st'; unfold resolved; auto; contradiction|].
    split; [|exact Hci].
    destruct (process s') eqn:Hpr; [|reflexivity].
    exfalso. apply E, Hproc. eauto.
Qed.

Lemma tick_advance e s s' :
  proc_inv s -> loop_cond s -> tick e s = Continue s' ->
  exists p st',
    packages s !! current_index s = Some p /\
    packages s' = alter (set_status st') (current_index s) (packages s) /\
    trans (status p) st' /\
    ((st' = PROCESSING /\ is_Some (process s') /\ current_index s' = current_index s) \/
     (resolved st' /\ process s' = None /\ current_index s' = S (current_index s))).
Proof.
  intros Hinv Hlt Ht.
  destruct (tick_Continue _ _ _ Hinv Hlt Ht) as (s1 & s2 & _ & Hsame & Hc & ->).
  destruct (job_case_advance e s1 s2 (same_job_proc_inv _ _ Hsame Hinv) Hc)
    as (p & st' & Hp & Hpk & Htr & Hctl).
  destruct Hsame as (Epk & Eci & _). rewrite Epk, Eci in *.
  exists p, st'. finish_frame. auto.
Qed.

Lemma init_frontier fs h w now : frontier (init fs h w now) (init fs h w now).
Proof.
  unfold frontier. simpl. split; [lia|]. split; [intros; lia|]. auto.
Qed.

Lemma tick_frontier s0 e s s' :
  proc_inv s -> loop_cond s -> tick e s = Continue s' ->
  frontier s0 s -> frontier s0 s'.
Proof.
  intros Hinv Hlt Ht (F0 & F1 & F2 & F3).
  destruct (tick_advance _ _ _ Hinv Hlt Ht) as (p & st' & Hp & Hpk & Htr & Hctl).
  unfold loop_cond in Hlt. unfold frontier. rewrite Hpk, length_alter.
  destruct Hctl as [(-> & Hpr & ->)|(Hres & Hpr & ->)].
  - split; [lia|]. split; [|split].
    + intros j q Hj Hq. rewrite list_lookup_alter_ne in Hq by lia. eauto.
    + intros j Hj. rewrite list_lookup_alter_ne by lia. auto.
    + intros Hn. rewrite Hn in Hpr. by destruct Hpr.
  - split; [lia|]. split; [|split].
    + intros j q Hj Hq. destruct (decide (current_index s = j)) as [<-|Hne].
      * rewrite list_lookup_alter_eq, Hp in Hq. injection Hq as <-. exact Hres.
      * rewrite list_lookup_alter_ne in Hq by exact Hne. apply (F1 j); [lia|exact Hq].
    + intros j Hj. rewrite list_lookup_alter_ne by lia. apply F2. lia.
    + intros _. rewrite list_lookup_alter_ne by lia. apply F2. lia.
Qed.

Lemma run_frontier s0 envs s :
  proc_inv s0 -> frontier s0 s0 -> run s0 envs s -> frontier s0 s.
Proof.
  intros H0 Hf Hrun. induction Hrun as [|envs s1 e s2 Hrun IH Hlt Ht]; [exact Hf|].
  exact (tick_frontier s0 e s1 s2 (run_proc_inv _ _ _ H0 Hrun) Hlt Ht IH).
Qed.

(** X4. Jobs are handled strictly in the order of the queue: at the top of
    every iteration each job before the cursor is [SUCCESS], [FAILURE] or
    [SKIPPED], each job after the cursor is exactly as it was loaded, and so
    is the job under the cursor unless its installer is running. *)
Theorem queue_is_processed_in_order fs h w now envs s :
  run (init fs h w now) envs s ->
  (current_index s <= length (packages s))%nat /\
  (forall j p, (j < current_index s)%nat -> packages s !! j = Some p ->
     status p = SUCCESS \/ status p = FAILURE \/ status p = SKIPPED) /\
  (forall j, (current_index s < j)%nat ->
     packages s !! j = get_initial_packages fs !! j) /\
  (process s = None ->
   packages s !! current_index s = get_initial_packages fs !! current_index s).
Proof.
  intros Hrun.
  exact (run_frontier _ _ _ (init_proc_inv fs h w now) (init_frontier fs h w now) Hrun).
Qed.

Lemma queue_is_processed_in_order_witness :
  run (init fs_demo 24 80 (Float.of_int 999)) envs_demo s_demo /\
  forall j, (current_index s_demo < j)%nat ->
    packages s_demo !! j = get_initial_packages fs_demo !! j.
Proof.
  split; [exact demo_run|].
  exact (proj1 (proj2 (proj2 (queue_is_processed_in_order fs_demo 24 80
                                (Float.of_int 999) envs_demo s_demo demo_run)))).
Defined.

Lemma run_cursor s envs s' :
  proc_inv s -> run s envs s' ->
  (current_index s <= current_index s' <= current_index s + length envs)%nat.
Proof.
  intros Hinv Hrun. induction Hrun as [|envs s1 e s2 Hrun IH Hlt Ht]; [simpl; lia|].
  destruct (tick_advance _ _ _ (run_proc_inv _ _ _ Hinv Hrun) Hlt Ht)
    as (_ & _ & _ & _ & _ & [(_ & _ & ->)|(_ & _ & ->)]);
    rewrite length_app; simpl; lia.
Qed.

(** X5. The cursor never moves back, and it moves by at most one job in an
    iteration. *)
Theorem cursor_is_monotone fs h w now envs s envs' s' :
  run (init fs h w now) envs s -> run s envs' s' ->
  (current_index s <= current_index s' <= current_index s + length envs')%nat.
Proof.
  intros Hrun. apply run_cursor.
  exact (run_proc_inv _ _ _ (init_proc_inv fs h w now) Hrun).
Qed.

Lemma cursor_is_monotone_witness :
  (run (init fs_demo 24 80 (Float.of_int 999)) [] (init fs_demo 24 80 (Float.of_int 999)) /\
   run (init fs_demo 24 80 (Float.of_int 999)) envs_demo s_demo) /\
  (current_index (init fs_demo 24 80 (Float.of_int 999)) <= current_index s_demo
   <= current_index (init fs_demo 24 80 (Float.of_int 999)) + length envs_demo)%nat.
Proof.
  split; [exact (conj (run_nil _) demo_run)|].
  exact (cursor_is_monotone fs_demo 24 80 (Float.of_int 999) [] _ envs_demo s_demo
           (run_nil _) demo_run).
Defined.

Lemma count_status_all sts pkgs :
  (forall p, p ∈ pkgs -> status p ∈ sts) -> count_status sts pkgs = length pkgs.
Proof.
  induction pkgs as [|p pkgs IH]; intros H; [reflexivity|].
  rewrite count_status_cons, IH.
  - rewrite bool_decide_eq_true_2; [reflexivity|]. apply H. by left.
  - intros q Hq. apply H. by right.
Qed.

Lemma main_loop_Completed envs s0 s :
  main_loop envs s0 = Completed s ->
  exists envs1, run s0 envs1 s /\ ~ loop_cond s.
Proof.
  revert s0. induction envs as [|e envs IH]; intros s0; simpl.
  - case_bool_decide as Hlt; [discriminate|]. intros [= <-].
    exists []. split; [apply run_nil|exact Hlt].
  - case_bool_decide as Hlt.
    + destruct (tick e s0) as [s1|s1|x s1] eqn:Ht; try discriminate.
      intros H. destruct (IH _ H) as (envs1 & Hrun & Hn).
      exists (e :: envs1). split; [by eapply run_cons|exact Hn].
    + intros [= <-]. exists []. split; [apply run_nil|exact Hlt].
Qed.

(** X6. When the loop ends because the cursor has passed the last job, every
    job is [SUCCESS], [FAILURE] or [SKIPPED], none is [QUEUED] or
    [PROCESSING], and no child is running. *)
Theorem completed_queue_is_resolved fs h w now envs s :
  main_loop envs (init fs h w now) = Completed s ->
  (forall p, p ∈ packages s ->
     status p = SUCCESS \/ status p = FAILURE \/ status p = SKIPPED) /\
  count_status [SUCCESS; FAILURE; SKIPPED] (packages s) = length (packages s) /\
  process s = None.
Proof.
  intros Hm. destruct (main_loop_Completed _ _ _ Hm) as (envs1 & Hrun & Hn).
  pose proof (init_proc_inv fs h w now) as H0.
  destruct (run_frontier _ _ _ H0 (init_frontier fs h w now) Hrun) as (F0 & F1 & _).
  pose proof (run_proc_inv _ _ _ H0 Hrun) as [_ Hr].
  unfold loop_cond in Hn.
  assert (Hall : forall p, p ∈ packages s -> resolved (status p)).
  { intros p Hp. apply list_elem_of_lookup in Hp as [j Hj].
    apply (F1 j p); [|exact Hj]. apply lookup_lt_Some in Hj. lia. }
  split; [exact Hall|]. split.
  - apply count_status_all. intros p Hp.
    destruct (Hall p Hp) as [-> | [-> | ->]];
      rewrite !elem_of_cons; auto.
  - destruct (process s) eqn:Hp; [|reflexivity].
    destruct Hr as (p & Hlk & _); [eauto|].
    apply lookup_lt_Some in Hlk. lia.
Qed.

Lemma completed_queue_is_resolved_witness :
  main_loop (replicate 8 env_installed) (init fs_eight 6 80 (Float.of_int 999))
  = Completed s_done /\
  count_status [SUCCESS; FAILURE; SKIPPED] (packages s_done) = length (packages s_done).
Proof.
  assert (H : main_loop (replicate 8 env_installed) (init fs_eight 6 80 (Float.of_int 999))
              = Completed s_done) by (vm_compute; reflexivity).
  split; [exact H|].
  exact (proj1 (proj2 (completed_queue_is_resolved fs_eight 6 80 (Float.of_int 999)
                         (replicate 8 env_installed) s_done H))).
Defined.

(** ** What one iteration does to the calls, the durations and the log *)

Lemma drain_output_lines lines s :
  output_lines (drain lines s) = output_lines s ++ drained lines.
Proof.
  unfold drain, drained. revert s. induction lines as [|l lines IH]; intros s.
  - simpl. by rewrite app_nil_r.
  - simpl fold_left. rewrite filter_cons. destruct l as [|c l].
    + rewrite IH. destruct (decide ([] <> [])) as [H|_]; [contradiction|reflexivity].
    + rewrite IH. destruct (decide (c :: l <> [])) as [_|H]; [|by destruct H].
      cbn. by rewrite <- app_assoc.
Qed.

Lemma handle_input_output_lines key s s1 :
  handle_input key s = Some s1 -> output_lines s1 = output_lines s.
Proof.
  unfold handle_input.
  destruct (key =? ord_q); [discriminate|].
  destruct (key =? ord_h); [|destruct (key =? ord_s); [|destruct (is_scroll_key key)]];
    by intros [= <-].
Qed.

Lemma job_case_detail e s s' :
  job_case e s (inr s') ->
  exists p st',
    packages s !! current_index s = Some p /\
    packages s' = alter (set_status st') (current_index s) (packages s) /\
    trans (status p) st' /\ st' <> QUEUED /\
    calls s' = calls s ++ calls_of_step (current_index s) p st' /\
    times (stats_data s') = times (stats_data s) ++ times_of_step e s p st' /\
    output_lines s' = log_of_step e s p st'.
Proof.
  intros Hc. remember (inr s') as r eqn:Hr. unfold trans.
  destruct Hc as [p Hproc Hp Hst|p x Hproc Hp Hst Hchk|p Hproc Hp Hst Hchk
                 |p x Hproc Hp Hst Hchk Hpo|p Hproc Hp Hst Hchk Hpo
                 |cmd p Hproc Hp Hst Hpoll|cmd p Hproc Hp Hst Hpoll
                 |cmd p rc Hproc Hp Hst Hpoll Hrc];
    simplify_eq.
  - exists p, (status p). rewrite (alter_same_status _ _ _ Hp).
    unfold calls_of_step, times_of_step, log_of_step.
    destruct Hst as [Hst | [Hst | Hst]]; rewrite Hst; cbn;
      rewrite !app_nil_r; repeat split; auto; discriminate.
  - exists p, SKIPPED. unfold calls_of_step, times_of_step, log_of_step.
    rewrite Hst. cbn. rewrite app_nil_r. repeat split; auto; discriminate.
  - exists p, PROCESSING. unfold calls_of_step, times_of_step, log_of_step.
    rewrite Hst. cbn. rewrite app_nil_r, <- app_assoc. repeat split; auto; discriminate.
  - exists p, (status p). rewrite drain_packages, drain_calls, drain_stats_data,
      drain_output_lines, (alter_same_status _ _ _ Hp).
    unfold calls_of_step, times_of_step, log_of_step. rewrite Hst. cbn.
    rewrite !app_nil_r. repeat split; auto; discriminate.
  - exists p, SUCCESS. unfold calls_of_step, times_of_step, log_of_step, finished, record_time.
    rewrite Hst. cbn. drain_frame.
    destruct (Float.ltb _ (pkg_start_time s)); cbn; drain_frame;
      rewrite drain_output_lines, !app_nil_r; repeat split; auto; discriminate.
  - exists p, FAILURE. unfold calls_of_step, times_of_step, log_of_step, finished.
    rewrite Hst. cbn. drain_frame.
    rewrite drain_output_lines, !app_nil_r. repeat split; auto; discriminate.
Qed.

Lemma tick_detail e s s' :
  proc_inv s -> loop_cond s -> tick e s = Continue s' ->
  exists p st',
    packages s !! current_index s = Some p /\
    packages s' = alter (set_status st') (current_index s) (packages s) /\
    trans (status p) st' /\ st' <> QUEUED /\
    calls s' = calls s ++ calls_of_step (current_index s) p st' /\
    times (stats_data s') = times (stats_data s) ++ times_of_step e s p st' /\
    output_lines s' = log_of_step e s p st'.
Proof.
  intros Hinv Hlt Ht.
  destruct (tick_Continue _ _ _ Hinv Hlt Ht) as (s1 & s2 & Hin & Hsame & Hc & ->).
  destruct (job_case_detail e s1 s2 Hc) as (p & st' & Hp & Hpk & Htr & Hq & Hcl & Hti & Hol).
  apply handle_input_output_lines in Hin. simpl in Hin.
  destruct Hsame as (Epk & Eci & _ & Est & Esd & Ecl & _).
  exists p, st'. finish_frame.
  unfold times_of_step, log_of_step in *.
  rewrite Epk, Eci, ?Est, ?Esd, ?Ecl, ?Hin in *. auto 10.
Qed.

Lemma alter_status_inj (l : list Package) i p st1 st2 :
  l !! i = Some p ->
  alter (set_status st1) i l = alter (set_status st2) i l -> st1 = st2.
Proof.
  intros Hp H. apply (f_equal (fun l => status <$> l !! i)) in H.
  rewrite !list_lookup_alter_eq, Hp in H. simpl in H. congruence.
Qed.

(** Everything one continuing iteration does to the job under the cursor. *)
Lemma tick_step e s s' :
  proc_inv s -> loop_cond s -> tick e s = Continue s' ->
  exists p st',
    packages s !! current_index s = Some p /\
    packages s' = alter (set_status st') (current_index s) (packages s) /\
    trans (status p) st' /\ st' <> QUEUED /\
    (status p = PROCESSING <-> is_Some (process s)) /\
    (st' = PROCESSING <-> is_Some (process s')) /\
    calls s' = calls s ++ calls_of_step (current_index s) p st' /\
    times (stats_data s') = times (stats_data s) ++ times_of_step e s p st' /\
    output_lines s' = log_of_step e s p st'.
Proof.
  intros Hinv Hlt Ht.
  destruct (tick_detail _ _ _ Hinv Hlt Ht)
    as (p & st' & Hp & Hpk & Htr & Hq & Hcl & Hti & Hol).
  destruct (tick_advance _ _ _ Hinv Hlt Ht) as (p2 & st2 & Hp2 & Hpk2 & _ & Hctl).
  assert (p2 = p) as -> by congruence.
  assert (st2 = st') as ->.
  { apply (alter_status_inj (packages s) (current_index s) p); congruence. }
  exists p, st'. repeat split; auto.
  - intros Hst. by destruct (proj1 Hinv _ _ Hp Hst).
  - intros Hs. destruct (proj2 Hinv Hs) as (q & Hq' & Hst). congruence.
  - intros ->. destruct Hctl as [(_ & H & _)|([?|[?|?]] & _)]; [exact H|discriminate..].
  - intros Hs. destruct Hctl as [(H & _)|(_ & Hn & _)]; [exact H|].
    rewrite Hn in Hs. by destruct Hs.
Qed.

(** ** The calls made for a job *)

Lemma calls_of_app j cs1 cs2 : calls_of j (cs1 ++ cs2) = calls_of j cs1 ++ calls_of j cs2.
Proof. apply filter_app. Qed.

Lemma calls_of_step_same j p st' :
  calls_of j (calls_of_step j p st') = calls_of_step j p st'.
Proof.
  unfold calls_of_step, calls_of. destruct (decide (status p = QUEUED)); [|reflexivity].
  destruct st'; rewrite ?filter_cons, ?filter_nil; cbn [call_job];
    rewrite ?decide_True by reflexivity; reflexivity.
Qed.

Lemma calls_of_step_other i j p st' :
  i <> j -> calls_of j (calls_of_step i p st') = [].
Proof.
  intros Hne. unfold calls_of_step, calls_of.
  destruct (decide (status p = QUEUED)); [|reflexivity].
  destruct st'; rewrite ?filter_cons, ?filter_nil; cbn [call_job];
    rewrite ?decide_False by exact Hne; reflexivity.
Qed.

Lemma run_calls_by_status fs h w now envs s j p0 p :
  run (init fs h w now) envs s ->
  get_initial_packages fs !! j = Some p0 ->
  packages s !! j = Some p ->
  calls_of j (calls s) = calls_by_status j p0 p.
Proof.
  intros Hrun Hp0.
  pose proof (init_proc_inv fs h w now) as H0.
  revert p. induction Hrun as [|envs s1 e s2 Hrun IH Hlt Ht]; intros p Hp.
  - simpl in Hp. assert (p = p0) as -> by congruence.
    unfold calls_by_status. destruct (decide (status p0 = QUEUED)) as [->|]; reflexivity.
  - pose proof (run_proc_inv _ _ _ H0 Hrun) as Hinv.
    destruct (tick_step _ _ _ Hinv Hlt Ht)
      as (q & st' & Hq & Hpk & Htr & Hnq & _ & _ & Hcl & _).
    rewrite Hcl, calls_of_app. rewrite Hpk in Hp.
    destruct (decide (current_index s1 = j)) as [<-|Hne].
    + rewrite list_lookup_alter_eq, Hq in Hp. injection Hp as <-.
      rewrite (IH q Hq), calls_of_step_same.
      unfold calls_by_status, calls_of_step. cbn [status name set_status].
      destruct (decide (status q = QUEUED)) as [Eq|Eq].
      * destruct (settled_queued_before _ _ _ _ (run_settled _ _ _ H0 Hrun) Hq Eq)
          as (p0' & Hp0' & Hst0).
        simpl in Hp0'. assert (p0' = p0) as -> by congruence.
        destruct (decide (status p0 = QUEUED)); [|contradiction].
        rewrite Eq. destruct st'; try reflexivity. contradiction.
      * rewrite app_nil_r. destruct (decide (status p0 = QUEUED)); [|reflexivity].
        unfold trans in Htr.
        destruct Htr as [<- | [[? _] | [-> [-> | ->]]]];
          [reflexivity|contradiction|reflexivity..].
    + rewrite list_lookup_alter_ne in Hp by exact Hne.
      rewrite (IH p Hp), calls_of_step_other by exact Hne. by rewrite app_nil_r.
Qed.


(** X7. The external calls made for a job are determined by the status it was
    loaded with and the status it has: none for a job that was loaded
    [SUCCESS] or [FAILURE] or is still [QUEUED]; one [dpkg-query] for a job
    that is [SKIPPED]; one [dpkg-query] followed by one launch of
    [sudo apt-get install -y name] for a job that is [PROCESSING], or has
    become [SUCCESS] or [FAILURE]. No job is checked or installed twice. *)
Theorem calls_made_for_a_job fs h w now envs s j p0 p :
  run (init fs h w now) envs s ->
  get_initial_packages fs !! j = Some p0 ->
  packages s !! j = Some p ->
  calls_of j (calls s)
  = if decide (status p0 = QUEUED) then
      match status p with
      | QUEUED => []
      | SKIPPED => [DpkgQuery j (name p)]
      | _ => [DpkgQuery j (name p); Popen j (install_cmd (name p))]
      end
    else [].
Proof. apply run_calls_by_status. Qed.

Lemma calls_made_for_a_job_witness :
  let p0 := {| line := py "alpha"; name := py "alpha"; status := QUEUED |} in
  let p := {| line := py "alpha"; name := py "alpha"; status := SUCCESS |} in
  (run (init fs_demo 24 80 (Float.of_int 999)) envs_demo s_demo /\
   get_initial_packages fs_demo !! 0%nat = Some p0 /\
   packages s_demo !! 0%nat = Some p) /\
  calls_of 0 (calls s_demo)
  = [DpkgQuery 0 (py "alpha"); Popen 0 (install_cmd (py "alpha"))].
Proof.
  intros p0 p.
  assert (H1 : get_initial_packages fs_demo !! 0%nat = Some p0) by (vm_compute; reflexivity).
  assert (H2 : packages s_demo !! 0%nat = Some p) by (vm_compute; reflexivity).
  split; [exact (conj demo_run (conj H1 H2))|].
  exact (calls_made_for_a_job fs_demo 24 80 (Float.of_int 999) envs_demo s_demo 0%nat
           p0 p demo_run H1 H2).
Defined.

(** ** The recorded durations *)

Lemma count_status_alter sts (l : list Package) i p st' :
  l !! i = Some p ->
  (count_status sts (alter (set_status st') i l)
   + (if bool_decide (status p ∈ sts) then 1 else 0)
   = count_status sts l + (if bool_decide (st' ∈ sts) then 1 else 0))%nat.
Proof.
  revert i. induction l as [|q l IH]; intros i Hp; [destruct i; discriminate|].
  destruct i as [|i]; simpl in Hp.
  - injection Hp as ->.
    change (alter (set_status st') 0%nat (p :: l)) with (set_status st' p :: l).
    rewrite !count_status_cons. cbn [status set_status]. lia.
  - change (alter (set_status st') (S i) (q :: l))
      with (q :: alter (set_status st') i l).
    rewrite !count_status_cons. specialize (IH i Hp). lia.
Qed.

Lemma tick_durations e s s' :
  proc_inv s -> loop_cond s -> tick e s = Continue s' ->
  exists d : nat,
    (count_status [SUCCESS] (packages s') = count_status [SUCCESS] (packages s) + d)%nat /\
    (length (times (stats_data s')) <= length (times (stats_data s)) + d)%nat /\
    (clock_ok s ->
     length (times (stats_data s')) = (length (times (stats_data s)) + d)%nat).
Proof.
  intros Hinv Hlt Ht.
  destruct (tick_step _ _ _ Hinv Hlt Ht)
    as (p & st' & Hp & Hpk & Htr & Hnq & Hpr & _ & _ & Hti & _).
  pose proof (count_status_alter [SUCCESS] _ _ _ st' Hp) as Hcnt.
  rewrite <- Hpk in Hcnt. rewrite Hti, length_app. unfold times_of_step, clock_ok.
  unfold trans in Htr.
  destruct (decide (status p = PROCESSING /\ st' = SUCCESS)) as [[Ep ->]|Hn].
  - exists 1%nat. rewrite Ep in Hcnt.
    rewrite bool_decide_eq_false_2 in Hcnt by (rewrite list_elem_of_singleton; discriminate).
    rewrite bool_decide_eq_true_2 in Hcnt by (by apply list_elem_of_singleton).
    split; [lia|]. split.
    + destruct (Float.ltb _ _); simpl; lia.
    + intros Hck. unfold after_epoch in Hck. rewrite Hck by (by apply Hpr). simpl. lia.
  - exists 0%nat. simpl. split; [|lia].
    destruct Htr as [<- | [[Eq [-> | ->]] | [Ep [-> | ->]]]]; try lia;
      try (exfalso; apply Hn; by split);
      rewrite ?Eq, ?Ep in Hcnt;
      repeat (rewrite bool_decide_eq_false_2 in Hcnt
                by (rewrite list_elem_of_singleton; discriminate));
      lia.
Qed.

(** X8. The list of durations has at most one entry for each job that has
    become [SUCCESS] in this run: its length plus the number of jobs loaded
    as [SUCCESS] is at most the number of jobs that are [SUCCESS];
    [FAILURE] and [SKIPPED] jobs contribute nothing. When the clock readings
    of the run are after the epoch there is exactly one entry for each. *)
Theorem durations_count_the_installs fs h w now envs s :
  run (init fs h w now) envs s ->
  (length (times (stats_data s)) + count_status [SUCCESS] (get_initial_packages fs)
   <= count_status [SUCCESS] (packages s))%nat /\
  (Forall (fun e => after_epoch (time_job e)) envs ->
   (length (times (stats_data s)) + count_status [SUCCESS] (get_initial_packages fs)
    = count_status [SUCCESS] (packages s))%nat).
Proof.
  intros Hrun.
  pose proof (init_proc_inv fs h w now) as H0.
  assert (Hc0 : clock_ok (init fs h w now)) by (intros [? [=]]).
  induction Hrun as [|envs s1 e s2 Hrun [IH1 IH2] Hlt Ht].
  - simpl. split; [lia|]. intros _. lia.
  - pose proof (run_proc_inv _ _ _ H0 Hrun) as Hinv.
    destruct (tick_durations _ _ _ Hinv Hlt Ht) as (d & Hd & Hle & Heq).
    split; [lia|].
    intros Hall. apply Forall_app in Hall as [Hall _].
    specialize (IH2 Hall). rewrite Heq; [lia|].
    exact (run_clock _ _ _ H0 Hc0 Hall Hrun).
Qed.

Lemma durations_count_the_installs_witness :
  (run (init fs_demo 24 80 (Float.of_int 999)) envs_demo s_demo /\
   Forall (fun e => after_epoch (time_job e)) envs_demo) /\
  (length (times (stats_data s_demo)) + count_status [SUCCESS] (get_initial_packages fs_demo)
   = count_status [SUCCESS] (packages s_demo))%nat.
Proof.
  assert (H : Forall (fun e => after_epoch (time_job e)) envs_demo)
    by (repeat constructor).
  split; [exact (conj demo_run H)|].
  exact (proj2 (durations_count_the_installs fs_demo 24 80 (Float.of_int 999) envs_demo
                  s_demo demo_run) H).
Defined.

(** ** The log buffer *)

(** X9. The log buffer grows only at its end while a job runs: an iteration
    that finds a child running, the one in which the child is found to have
    exited included, appends the stripped non-empty lines it has read and
    changes nothing else of the buffer. The buffer is replaced, by the two
    banner lines, exactly in the iteration that launches an installer; an
    iteration that skips or passes a job leaves it as it is. *)
Theorem log_buffer_is_append_only fs h w now envs s e s' :
  run (init fs h w now) envs s ->
  loop_cond s ->
  tick e s = Continue s' ->
  (is_Some (process s) ->
   output_lines s'
   = output_lines s ++ (strip <$> filter (fun l => l <> []) (readline e))) /\
  (process s = None -> is_Some (process s') ->
   exists p, packages s !! current_index s = Some p /\
     output_lines s' = banner (name p)) /\
  (process s = None -> process s' = None -> output_lines s' = output_lines s).
Proof.
  intros Hrun Hlt Ht.
  pose proof (run_proc_inv _ _ _ (init_proc_inv fs h w now) Hrun) as Hinv.
  destruct (tick_step _ _ _ Hinv Hlt Ht)
    as (p & st' & Hp & _ & Htr & Hnq & Hpr & Hpr' & _ & _ & Hol).
  rewrite Hol. unfold log_of_step, trans in *.
  split; [|split].
  - intros Hs. apply Hpr in Hs.
    destruct (decide (status p = QUEUED /\ st' = PROCESSING)) as [[? _]|_]; [congruence|].
    destruct (decide (status p = PROCESSING)); [reflexivity|contradiction].
  - intros Hn Hs. apply Hpr' in Hs. subst st'. exists p. split; [exact Hp|].
    assert (Hnp : status p <> PROCESSING).
    { intros E. apply Hpr in E. rewrite Hn in E. by destruct E. }
    destruct Htr as [E | [[E _] | [E _]]]; try congruence.
    destruct (decide (status p = QUEUED /\ PROCESSING = PROCESSING)) as [_|H];
      [reflexivity|]. by destruct H.
  - intros Hn Hn'.
    assert (Hnp : status p <> PROCESSING).
    { intros E. apply Hpr in E. rewrite Hn in E. by destruct E. }
    assert (Hnp' : st' <> PROCESSING).
    { intros E. apply Hpr' in E. rewrite Hn' in E. by destruct E. }
    destruct (decide (status p = QUEUED /\ st' = PROCESSING)) as [[_ ?]|_]; [contradiction|].
    destruct (decide (status p = PROCESSING)); [contradiction|reflexivity].
Qed.

Lemma log_buffer_is_append_only_witness :
  (run (init fs_demo 24 80 (Float.of_int 999)) envs_demo s_demo /\
   loop_cond s_demo /\
   tick (env_exit 0 1009) s_demo
   = Continue (outcome_state (tick (env_exit 0 1009) s_demo)) /\
   is_Some (process s_demo)) /\
  output_lines (outcome_state (tick (env_exit 0 1009) s_demo))
  = output_lines s_demo
    ++ (strip <$> filter (fun l => l <> []) (readline (env_exit 0 1009))).
Proof.
  assert (H1 : loop_cond s_demo) by (vm_compute; lia).
  assert (H2 : tick (env_exit 0 1009) s_demo
               = Continue (outcome_state (tick (env_exit 0 1009) s_demo)))
    by (vm_compute; reflexivity).
  assert (H3 : is_Some (process s_demo)) by (vm_compute; eauto).
  split; [exact (conj demo_run (conj H1 (conj H2 H3)))|].
  exact (proj1 (log_buffer_is_append_only fs_demo 24 80 (Float.of_int 999) envs_demo
                  s_demo (env_exit 0 1009) _ demo_run H1 H2) H3).
Defined.

(** ** Drawing *)

Lemma job_step_needs_redraw e s s2 :
  job_step e s = inr s2 -> needs_redraw s2 = true \/ is_Some (process s2).
Proof.
  unfold job_step, watch_job, start_job, finish_job, advance_unless_processing.
  destruct (drain_shape (readline e) s) as (b & ol & ->).
  intros H. repeat (case_match; simplify_eq; cbn in *); eauto.
Qed.

(** The test [needs_redraw or process is not None] of line 279 never fails. *)
Lemma tick_redraws e s s' :
  tick e s = Continue s' ->
  screen s'
  = Some (draw_package_list (height s') (width s' / 2) (packages s') (scroll_offset s')).
Proof.
  unfold tick.
  destruct (handle_input (getch e) (set_needs_redraw false s)) as [s1|]; [|discriminate].
  destruct (job_step e s1) as [[x s2]|s2] eqn:Hjob; [discriminate|].
  intros [= <-]. change (redraw _) with (finish_tick e s2).
  destruct (finish_tick_frame e s2) as (-> & _ & _ & _ & _ & -> & -> & _).
  destruct (finish_tick_screen e s2) as [(Hn & Hp & _)|(_ & Hs)]; [|exact Hs].
  destruct (job_step_needs_redraw _ _ _ Hjob) as [H|H].
  - congruence.
  - rewrite Hp in H. by destruct H.
Qed.

(** X10. Every iteration that continues the loop redraws the list pane: the
    test [needs_redraw or process is not None] never fails, so the screen
    always shows the queue and the scroll offset of the state the iteration
    ends in. *)
Theorem every_iteration_redraws e s s' :
  tick e s = Continue s' ->
  screen s'
  = Some (draw_package_list (height s') (width s' / 2) (packages s') (scroll_offset s')).
Proof. apply tick_redraws. Qed.

Lemma every_iteration_redraws_witness :
  tick (env_idle 1009) s_demo = Continue (outcome_state (tick (env_idle 1009) s_demo)) /\
  screen (outcome_state (tick (env_idle 1009) s_demo))
  = Some (draw_package_list (height (outcome_state (tick (env_idle 1009) s_demo)))
            (width (outcome_state (tick (env_idle 1009) s_demo)) / 2)
            (packages (outcome_state (tick (env_idle 1009) s_demo)))
            (scroll_offset (outcome_state (tick (env_idle 1009) s_demo)))).
Proof.
  assert (H : tick (env_idle 1009) s_demo
              = Continue (outcome_state (tick (env_idle 1009) s_demo)))
    by (vm_compute; reflexivity).
  split; [exact H|].
  exact (every_iteration_redraws _ _ _ H).
Defined.

(** ** Starting a job *)

Lemma finish_tick_pkg_start_time e s :
  pkg_start_time (finish_tick e s) = pkg_start_time s.
Proof. apply finish_tick_frame. Qed.

(** X11. What the iteration that reaches a [QUEUED] job does, by the outcome
    of [dpkg-query]: exit code [0] makes the job [SKIPPED] and moves the
    cursor on without starting the installer; a nonzero exit code, and also a
    [dpkg-query] that is not there, lead to the launch of
    [sudo apt-get install -y name], after which the job is [PROCESSING], the
    cursor stays and the start time is the clock reading; any other exception
    of the check leaves [main_ui] with the queue unchanged. *)
Theorem queued_job_start e s p :
  process s = None ->
  packages s !! current_index s = Some p ->
  status p = QUEUED ->
  getch e <> ord_q ->
  let dpkg :=
    subprocess_run e [py "dpkg-query"; py "-W"; py "-f=${Status}"; name p] in
  (dpkg = Exited 0 ->
   exists s', tick e s = Continue s' /\
     packages s' = alter (set_status SKIPPED) (current_index s) (packages s) /\
     process s' = None /\ current_index s' = S (current_index s) /\
     calls s' = calls s ++ [DpkgQuery (current_index s) (name p)]) /\
  ((exists rc, dpkg = Exited rc /\ rc <> 0) \/ dpkg = RunRaised FileNotFoundError ->
   subprocess_Popen e (install_cmd (name p)) = Spawned ->
   exists s', tick e s = Continue s' /\
     packages s' = alter (set_status PROCESSING) (current_index s) (packages s) /\
     process s' = Some (install_cmd (name p)) /\
     current_index s' = current_index s /\
     pkg_start_time s' = time_job e /\
     calls s' = calls s ++ [DpkgQuery (current_index s) (name p);
                            Popen (current_index s) (install_cmd (name p))]) /\
  (forall x, dpkg = RunRaised x -> x <> FileNotFoundError ->
   exists s', tick e s = Raise x s' /\ packages s' = packages s /\ process s' = None).
Proof.
  intros Hproc Hp Hst Hkey dpkg. unfold tick.
  destruct (handle_input (getch e) (set_needs_redraw false s)) as [s1|] eqn:Hin;
    [|by apply handle_input_None in Hin].
  destruct (handle_input_Some _ _ _ Hin) as (_ & Hsame & _).
  destruct Hsame as (Epk & Eci & Epr & _ & _ & Ecl & _). simpl in Epk, Eci, Epr, Ecl.
  unfold job_step. rewrite Epr, Hproc. unfold start_job. rewrite Epk, Eci, Hp.
  destruct (decide (status p = QUEUED)); [|contradiction].
  unfold check_if_installed. fold dpkg.
  split; [|split].
  - intros ->. simpl (0 =? 0).
    rewrite (advance_moves _ (set_status SKIPPED p));
      [|simpl; by rewrite Epk, Eci, list_lookup_alter_eq, Hp|discriminate].
    eexists. split; [reflexivity|].
    change (redraw _) with (finish_tick e
      (set_needs_redraw true
         (set_current_index
            (S (current_index
                  (set_pkg_status SKIPPED
                     (log_call (DpkgQuery (current_index s) (name p)) s1))))
            (set_pkg_status SKIPPED
               (log_call (DpkgQuery (current_index s) (name p)) s1))))).
    finish_frame. cbn. rewrite Epk, Eci, Ecl, Epr, Hproc. auto.
  - intros Hd Hpo.
    assert (Hchk : match dpkg with
                   | Exited rc => inr (rc =? 0)
                   | RunRaised FileNotFoundError => inr false
                   | RunRaised x => inl x
                   end = (inr false : Exn + bool)).
    { destruct Hd as [(rc & -> & Hrc)| ->]; [|reflexivity].
      apply Z.eqb_neq in Hrc. by rewrite Hrc. }
    rewrite Hchk. cbv zeta. rewrite Hpo.
    rewrite (advance_stays _ (set_status PROCESSING p));
      [|simpl; by rewrite Epk, Eci, list_lookup_alter_eq, Hp|reflexivity].
    eexists. split; [reflexivity|].
    match goal with |- context [redraw (auto_scroll (update_stats _ ?x))] =>
      change (redraw (auto_scroll (update_stats (time_stats e) x)))
        with (finish_tick e x)
    end.
    finish_frame. rewrite finish_tick_pkg_start_time. cbn.
    rewrite Epk, Eci, Ecl, <- app_assoc. auto 10.
  - intros x -> Hx. destruct x; [contradiction|..];
      (eexists; split; [reflexivity|]; cbn; rewrite Epk, Epr; auto).
Qed.

Lemma queued_job_start_witness :
  let s := init fs_eight 6 80 (Float.of_int 999) in
  let p := {| line := py "pkg"; name := py "pkg"; status := QUEUED |} in
  (process s = None /\ packages s !! current_index s = Some p /\
   status p = QUEUED /\ getch env_installed <> ord_q /\
   subprocess_run env_installed [py "dpkg-query"; py "-W"; py "-f=${Status}"; name p]
   = Exited 0) /\
  exists s', tick env_installed s = Continue s' /\
    packages s' = alter (set_status SKIPPED) (current_index s) (packages s) /\
    process s' = None /\ current_index s' = S (current_index s) /\
    calls s' = calls s ++ [DpkgQuery (current_index s) (name p)].
Proof.
  intros s p.
  assert (H1 : process s = None) by reflexivity.
  assert (H2 : packages s !! current_index s = Some p) by (vm_compute; reflexivity).
  assert (H3 : status p = QUEUED) by reflexivity.
  assert (H4 : getch env_installed <> ord_q) by (vm_compute; discriminate).
  assert (H5 : subprocess_run env_installed
                 [py "dpkg-query"; py "-W"; py "-f=${Status}"; name p] = Exited 0)
    by reflexivity.
  split; [exact (conj H1 (conj H2 (conj H3 (conj H4 H5))))|].
  exact (proj1 (queued_job_start env_installed s p H1 H2 H3 H4) H5).
Defined.

(** ** The rows of the list pane *)

Lemma py_slice_length {A} (l : list A) a n :
  0 <= a -> 0 <= n ->
  Z.of_nat (length (py_slice l a (a + n)))
  = Z.min n (Z.max 0 (Z.of_nat (length l) - a)).
Proof.
  intros Ha Hn. unfold py_slice, slice_index.
  rewrite (proj2 (Z.ltb_ge a 0) Ha), (proj2 (Z.ltb_ge (a + n) 0)) by lia.
  rewrite length_take, length_drop. lia.
Qed.

Lemma py_slice_lookup {A} (l : list A) a n i :
  0 <= a -> (Z.of_nat i < n) ->
  py_slice l a (a + n) !! i = l !! (Z.to_nat a + i)%nat.
Proof.
  intros Ha Hi. unfold py_slice, slice_index.
  rewrite (proj2 (Z.ltb_ge a 0) Ha), (proj2 (Z.ltb_ge (a + n) 0)) by lia.
  destruct (decide (Z.to_nat a + i < length l)%nat) as [Hlt|Hge].
  - rewrite lookup_take_lt by lia. rewrite lookup_drop. f_equal. lia.
  - rewrite (lookup_ge_None_2 l) by lia.
    apply lookup_ge_None_2. rewrite length_take, length_drop. lia.
Qed.

Lemma tick_view_of e s s' :
  tick e s = Continue s' ->
  exists pane,
    screen s' = Some pane /\
    pane = draw_package_list (height s') (width s' / 2) (packages s') (scroll_offset s') /\
    scroll_offset s'
    = Z.max 0 (Z.min (Z.of_nat (current_index s') - (height s' - 2) / 2)
                 (Z.max 0 (Z.of_nat (length (packages s')) - (height s' - 2)))).
Proof.
  intros Ht. eexists. split; [exact (tick_redraws _ _ _ Ht)|].
  split; [reflexivity|].
  destruct (tick_Continue_finish _ _ _ Ht) as (s2 & -> & _).
  rewrite finish_tick_scroll.
  destruct (finish_tick_frame e s2) as (-> & -> & _ & _ & _ & -> & _).
  reflexivity.
Qed.

(** X12. After every iteration that leaves a job under the cursor, on a
    terminal of at least three lines, that job is on the screen: the scroll
    offset is at most the cursor, the cursor is less than the offset plus the
    number of visible rows, and the row of the pane at that distance shows the
    symbol of the job's status, a space and its key, cut to the width of the
    pane. *)
Theorem job_under_cursor_is_visible e s s' :
  tick e s = Continue s' ->
  loop_cond s' ->
  3 <= height s' ->
  exists pane p,
    screen s' = Some pane /\
    packages s' !! current_index s' = Some p /\
    scroll_offset s' <= Z.of_nat (current_index s')
      < scroll_offset s' + (height s' - 2) /\
    rows pane !! Z.to_nat (Z.of_nat (current_index s') - scroll_offset s')
    = Some (py_slice (symbols (status p) ++ py " " ++ line p) 0 (width s' / 2 - 4)).
Proof.
  intros Ht Hlt Hh.
  destruct (tick_view_of _ _ _ Ht) as (pane & Hsc & Hpane & Hso).
  destruct (lookup_lt_is_Some_2 _ _ Hlt) as [p Hp].
  exists pane, p. split; [exact Hsc|]. split; [exact Hp|].
  unfold loop_cond in Hlt.
  set (vr := height s' - 2) in *.
  assert (Hdiv : 0 <= vr / 2 < vr).
  { split; [apply Z.div_pos; lia|apply Z.div_lt; lia]. }
  assert (Hvis : scroll_offset s' <= Z.of_nat (current_index s') < scroll_offset s' + vr)
    by lia.
  split; [exact Hvis|].
  rewrite Hpane. unfold draw_package_list. cbn [rows]. fold vr.
  rewrite list_lookup_fmap.
  rewrite py_slice_lookup by lia.
  replace (Z.to_nat (scroll_offset s')
           + Z.to_nat (Z.of_nat (current_index s') - scroll_offset s'))%nat
    with (current_index s') by lia.
  by rewrite Hp.
Qed.

Lemma job_under_cursor_is_visible_witness :
  let s' := outcome_state (tick env_installed s_scrolled) in
  (tick env_installed s_scrolled = Continue s' /\ loop_cond s' /\ 3 <= height s') /\
  scroll_offset s' <= Z.of_nat (current_index s') < scroll_offset s' + (height s' - 2).
Proof.
  intros s'.
  assert (H1 : tick env_installed s_scrolled = Continue s') by (vm_compute; reflexivity).
  assert (H2 : loop_cond s') by (vm_compute; lia).
  assert (H3 : 3 <= height s') by (vm_compute; discriminate).
  split; [exact (conj H1 (conj H2 H3))|].
  destruct (job_under_cursor_is_visible env_installed s_scrolled s' H1 H2 H3)
    as (pane & p & _ & _ & H & _).
  exact H.
Defined.

(** X13. After every iteration, on a terminal of at least two lines, the pane
    shows as many rows as it has room for or the queue has jobs, whichever is
    less: it never shows more rows than fit between its borders, and if the
    queue is longer than the pane no row of the pane is left empty. *)
Theorem pane_rows_are_filled e s s' :
  tick e s = Continue s' ->
  2 <= height s' ->
  exists pane,
    screen s' = Some pane /\
    Z.of_nat (length (rows pane))
    = Z.min (height s' - 2) (Z.of_nat (length (packages s'))).
Proof.
  intros Ht Hh.
  destruct (tick_view_of _ _ _ Ht) as (pane & Hsc & Hpane & Hso).
  exists pane. split; [exact Hsc|].
  rewrite Hpane. unfold draw_package_list. cbn [rows].
  rewrite length_fmap, py_slice_length by lia. lia.
Qed.

Lemma pane_rows_are_filled_witness :
  let s' := outcome_state (tick env_installed s_scrolled) in
  (tick env_installed s_scrolled = Continue s' /\ 2 <= height s') /\
  exists pane,
    screen s' = Some pane /\
    Z.of_nat (length (rows pane))
    = Z.min (height s' - 2) (Z.of_nat (length (packages s'))).
Proof.
  intros s'.
  assert (H1 : tick env_installed s_scrolled = Continue s') by (vm_compute; reflexivity).
  assert (H2 : 2 <= height s') by (vm_compute; discriminate).
  split; [exact (conj H1 H2)|].
  exact (pane_rows_are_filled env_installed s_scrolled s' H1 H2).
Defined.

(** ** [format_seconds] *)

Lemma codes_uint_codes d : codes_uint (uint_codes d) = Some d.
Proof. induction d; simpl; rewrite ?IHd; reflexivity. Qed.

Lemma codes_uint_zeros k d :
  codes_uint (replicate k 48%N ++ uint_codes d) = Some (Nat.iter k Decimal.D0 d).
Proof.
  induction k as [|k IH]; simpl; [apply codes_uint_codes|].
  rewrite IH. reflexivity.
Qed.

Lemma of_uint_zeros k d : N.of_uint (Nat.iter k Decimal.D0 d) = N.of_uint d.
Proof. induction k as [|k IH]; simpl; [reflexivity|exact IH]. Qed.

Lemma format_02d_length n : 0 <= n -> (2 <= length (format_02d n))%nat.
Proof.
  intros Hn. unfold format_02d. rewrite (proj2 (Z.ltb_ge n 0) Hn).
  cbv zeta. rewrite length_app, length_replicate. lia.
Qed.

Lemma parse_format_02d n : 0 <= n -> parse_digits (format_02d n) = Some (Z.to_N n).
Proof.
  intros Hn. pose proof (format_02d_length n Hn) as Hlen.
  unfold parse_digits. destruct (format_02d n) as [|c r] eqn:E; [simpl in Hlen; lia|].
  rewrite <- E. unfold format_02d. rewrite (proj2 (Z.ltb_ge n 0) Hn). cbv zeta.
  unfold digits. rewrite codes_uint_zeros. simpl.
  by rewrite of_uint_zeros, DecimalN.Unsigned.of_to.
Qed.

Lemma format_02d_two n : 0 <= n < 100 -> length (format_02d n) = 2%nat.
Proof.
  intros Hn.
  assert (Hall : forallb (fun k => Nat.eqb (length (format_02d (Z.of_nat k))) 2)
                   (seq 0 100) = true) by (vm_compute; reflexivity).
  rewrite forallb_forall in Hall.
  specialize (Hall (Z.to_nat n)). rewrite Z2Nat.id in Hall by lia.
  apply Nat.eqb_eq, Hall, in_seq. lia.
Qed.

Lemma to_int_nonneg x :
  Float.ltb x (Float.of_int 0) = false -> 0 <= Float.to_int x.
Proof.
  destruct x as [s|s| |s m e]; simpl; try lia.
  destruct s; [discriminate|]. intros _.
  destruct e as [|p|p]; [lia| |].
  - apply Z.mul_nonneg_nonneg; [lia|]. apply Z.pow_nonneg. lia.
  - apply Z.div_pos; [lia|]. apply Z.pow_pos_nonneg; lia.
Qed.

(** X14. For a float that is a number and not negative, [format_seconds]
    gives minutes, a colon and seconds, the minutes with at least two digits
    and the seconds with exactly two; read back as numbers, the seconds are
    less than 60 and sixty times the minutes plus the seconds is the float
    truncated to an integer. *)
Theorem format_seconds_reads_back x :
  is_finite x ->
  Float.ltb x (Float.of_int 0) = false ->
  exists mm ss m sec,
    format_seconds (Some x) = inr (mm ++ py ":" ++ ss) /\
    (2 <= length mm)%nat /\ length ss = 2%nat /\
    parse_digits mm = Some m /\ parse_digits ss = Some sec /\
    (sec < 60)%N /\ Z.of_N (60 * m + sec) = Float.to_int x.
Proof.
  intros Hfin Hlt. pose proof (to_int_nonneg x Hlt) as Hn.
  set (n := Float.to_int x) in *.
  assert (Hm : 0 <= n / 60) by (apply Z.div_pos; lia).
  assert (Hs : 0 <= n mod 60 < 60) by (apply Z.mod_pos_bound; lia).
  exists (format_02d (n / 60)), (format_02d (n mod 60)),
    (Z.to_N (n / 60)), (Z.to_N (n mod 60)).
  split.
  { unfold format_seconds. rewrite Hlt. destruct x; try contradiction; reflexivity. }
  split; [by apply format_02d_length|].
  split; [apply format_02d_two; lia|].
  split; [by apply parse_format_02d|].
  split; [apply parse_format_02d; lia|].
  split; [lia|].
  pose proof (Z.div_mod n 60). lia.
Qed.

Lemma format_seconds_reads_back_witness :
  (is_finite (Float.of_int 3725) /\
   Float.ltb (Float.of_int 3725) (Float.of_int 0) = false) /\
  exists mm ss m sec,
    format_seconds (Some (Float.of_int 3725)) = inr (mm ++ py ":" ++ ss) /\
    (2 <= length mm)%nat /\ length ss = 2%nat /\
    parse_digits mm = Some m /\ parse_digits ss = Some sec /\
    (sec < 60)%N /\ Z.of_N (60 * m + sec) = Float.to_int (Float.of_int 3725).
Proof.
  assert (H1 : is_finite (Float.of_int 3725)) by (vm_compute; exact I).
  assert (H2 : Float.ltb (Float.of_int 3725) (Float.of_int 0) = false)
    by (vm_compute; reflexivity).
  split; [exact (conj H1 H2)|].
  exact (format_seconds_reads_back (Float.of_int 3725) H1 H2).
Defined.

Example format_seconds_examples :
  format_seconds <$> [None; Some (Float.of_int (-3)); Some (Float.of_int 59);
                      Some (Float.of_int 3725); Some (Float.of_int 360000)]
  = inr <$> [py "--:--"; py "--:--"; py "00:59"; py "62:05"; py "6000:00"].
Proof. vm_compute. reflexivity. Qed.



(** ** Keys *)

Lemma handle_input_view key s :
  key <> ord_q -> exists b h t o, handle_input key s = Some (with_view b h t o s).
Proof.
  intros Hk. unfold handle_input. rewrite (proj2 (Z.eqb_neq key ord_q) Hk).
  destruct (key =? ord_h); [|destruct (key =? ord_s); [|destruct (is_scroll_key key)]].
  - exists true, (negb (show_help s)), (show_stats s), (scroll_offset s).
    by destruct s.
  - exists true, (show_help s), (negb (show_stats s)), (scroll_offset s).
    by destruct s.
  - exists true, (show_help s), (show_stats s),
      (Z.max 0 (Z.min (if key =? KEY_UP then scroll_offset s - 1
                       else if key =? KEY_DOWN then scroll_offset s + 1
                       else if key =? KEY_PPAGE then scroll_offset s - (height s - 2)
                       else scroll_offset s + (height s - 2))
                      (max_scroll_of s))).
    by destruct s.
  - exists (needs_redraw s), (show_help s), (show_stats s), (scroll_offset s).
    by destruct s.
Qed.

Lemma drain_with_view b h t o lines s :
  exists b', drain lines (with_view b h t o s) = with_view b' h t o (drain lines s).
Proof.
  unfold drain. revert b s. induction lines as [|l lines IH]; intros b s.
  - exists b. reflexivity.
  - simpl. destruct l as [|c l]; [apply IH|].
    destruct (IH true (set_needs_redraw true
                         (set_output_lines (output_lines s ++ [strip (c :: l)]) s)))
      as [b' Hb'].
    exists b'. rewrite <- Hb'. reflexivity.
Qed.

Lemma job_step_with_view b h t o e s :
  exists b',
    job_step e (with_view b h t o s) = map_state (with_view b' h t o) (job_step e s).
Proof.
  unfold job_step, watch_job, start_job, finish_job, advance_unless_processing.
  destruct (drain_with_view b h t o (readline e) s) as [b1 Hd]. rewrite Hd.
  destruct (drain_shape (readline e) s) as (b2 & ol & ->).
  cbn.
  repeat (case_match; simplify_eq; cbn in *);
    first [by (exists true) | by (exists b1) | by (exists b)].
Qed.

Lemma job_step_with_getch key e s : job_step (with_getch key e) s = job_step e s.
Proof. reflexivity. Qed.

Lemma finish_tick_with_view b h t o e s :
  packages (finish_tick e (with_view b h t o s)) = packages (finish_tick e s) /\
  current_index (finish_tick e (with_view b h t o s)) = current_index (finish_tick e s) /\
  process (finish_tick e (with_view b h t o s)) = process (finish_tick e s) /\
  stats_data (finish_tick e (with_view b h t o s)) = stats_data (finish_tick e s) /\
  calls (finish_tick e (with_view b h t o s)) = calls (finish_tick e s) /\
  output_lines (finish_tick e (with_view b h t o s)) = output_lines (finish_tick e s) /\
  pkg_start_time (finish_tick e (with_view b h t o s))
  = pkg_start_time (finish_tick e s) /\
  scroll_offset (finish_tick e (with_view b h t o s))
  = scroll_offset (finish_tick e s) /\
  height (finish_tick e (with_view b h t o s)) = height (finish_tick e s) /\
  width (finish_tick e (with_view b h t o s)) = width (finish_tick e s).
Proof.
  unfold finish_tick, redraw. cbn.
  destruct (b || _), (needs_redraw s || _); repeat split.
Qed.

(** X16. No key other than [q] has any influence on the jobs: with any other
    key read in its place an iteration continues as well and ends with the
    same queue, cursor, child, statistics, calls, log buffer, scroll offset
    and drawn list pane. Keys only change which overlays are shown. *)
Theorem keys_do_not_steer_the_jobs e key s s' :
  tick e s = Continue s' ->
  key <> ord_q ->
  exists s'',
    tick (with_getch key e) s = Continue s'' /\
    packages s'' = packages s' /\ current_index s'' = current_index s' /\
    process s'' = process s' /\ stats_data s'' = stats_data s' /\
    calls s'' = calls s' /\ output_lines s'' = output_lines s' /\
    pkg_start_time s'' = pkg_start_time s' /\
    scroll_offset s'' = scroll_offset s' /\ screen s'' = screen s'.
Proof.
  intros Ht Hk.
  assert (Hq : getch e <> ord_q).
  { intros E. unfold tick in Ht.
    destruct (handle_input (getch e) (set_needs_redraw false s)) eqn:Hin; [|discriminate].
    by destruct (handle_input_Some _ _ _ Hin). }
  pose proof (tick_redraws _ _ _ Ht) as Hscr.
  revert Hscr. revert Ht. unfold tick at 1.
  destruct (handle_input_view (getch e) (set_needs_redraw false s) Hq)
    as (b1 & h1 & t1 & o1 & ->).
  destruct (job_step_with_view b1 h1 t1 o1 e (set_needs_redraw false s)) as [b1' ->].
  destruct (job_step e (set_needs_redraw false s)) as [[x sr]|sr] eqn:Hjob;
    [discriminate|].
  simpl. intros [= <-] Hscr.
  change (redraw _) with (finish_tick e (with_view b1' h1 t1 o1 sr)) in *.
  assert (Ht2 : exists b h t o,
             tick (with_getch key e) s = Continue (finish_tick e (with_view b h t o sr))).
  { unfold tick. cbn [getch with_getch].
    destruct (handle_input_view key (set_needs_redraw false s) Hk)
      as (b2 & h2 & t2 & o2 & ->).
    rewrite job_step_with_getch.
    destruct (job_step_with_view b2 h2 t2 o2 e (set_needs_redraw false s)) as [b2' ->].
    rewrite Hjob. simpl. by exists b2', h2, t2, o2. }
  destruct Ht2 as (b2 & h2 & t2 & o2 & Ht2).
  pose proof (tick_redraws _ _ _ Ht2) as Hscr2.
  eexists. split; [exact Ht2|].
  destruct (finish_tick_with_view b1' h1 t1 o1 e sr)
    as (A1 & A2 & A3 & A4 & A5 & A6 & A7 & A8 & A9 & A10).
  destruct (finish_tick_with_view b2 h2 t2 o2 e sr)
    as (B1 & B2 & B3 & B4 & B5 & B6 & B7 & B8 & B9 & B10).
  rewrite Hscr, Hscr2.
  repeat split; congruence.
Qed.

Lemma keys_do_not_steer_the_jobs_witness :
  let s' := outcome_state (tick (env_exit 0 1009) s_demo) in
  (tick (env_exit 0 1009) s_demo = Continue s' /\ ord_h <> ord_q) /\
  exists s'',
    tick (with_getch ord_h (env_exit 0 1009)) s_demo = Continue s'' /\
    packages s'' = packages s' /\ current_index s'' = current_index s' /\
    process s'' = process s' /\ stats_data s'' = stats_data s' /\
    calls s'' = calls s' /\ output_lines s'' = output_lines s' /\
    pkg_start_time s'' = pkg_start_time s' /\
    scroll_offset s'' = scroll_offset s' /\ screen s'' = screen s'.
Proof.
  intros s'.
  assert (H1 : tick (env_exit 0 1009) s_demo = Continue s') by (vm_compute; reflexivity).
  assert (H2 : ord_h <> ord_q) by discriminate.
  split; [exact (conj H1 H2)|].
  exact (keys_do_not_steer_the_jobs (env_exit 0 1009) ord_h s_demo s' H1 H2).
Defined.
